(** * MCP-Doc: a shallow embedding of the document editing tools

  The tools of [src/mcp_doc/tools/content.py] and
  [src/mcp_doc/tools/table.py] edit the python-docx document held in
  [processor.current_document].  Each tool is embedded as a function from
  the processor state to a response and the new state.  Python [int]s are
  [Z], Python [str]s are [string], Python lists are [list]s, and the
  python-docx object tree is the tree of the elements it wraps. *)

From Stdlib Require Import ZArith List String Ascii Bool Lia.
Import ListNotations.

#[local] Open Scope string_scope.
#[local] Open Scope list_scope.
#[local] Open Scope Z_scope.

(** ** Python built-ins used by the tools *)

Module Py.

Definition len {A} (l : list A) : Z := Z.of_nat (List.length l).

Definition strlen (s : string) : Z := Z.of_nat (String.length s).

(** [range(a, b)] *)
Definition range (a b : Z) : list Z :=
  map (fun k => a + Z.of_nat k) (seq 0 (Z.to_nat (b - a))).

(** [range(a, b, -1)] *)
Definition range_down (a b : Z) : list Z :=
  map (fun k => a - Z.of_nat k) (seq 0 (Z.to_nat (a - b))).

(** [l[i]] for [0 <= i]; [None] stands for [IndexError].  Negative
    subscripts count from the end. *)
Definition getitem {A} (l : list A) (i : Z) : option A :=
  if i <? 0
  then (if i + len l <? 0 then None else nth_error l (Z.to_nat (i + len l)))
  else nth_error l (Z.to_nat i).

(** [enumerate(l)] *)
Fixpoint enumerate_from {A} (i : Z) (l : list A) : list (Z * A) :=
  match l with
  | [] => []
  | x :: l' => (i, x) :: enumerate_from (i + 1) l'
  end.

Definition enumerate {A} (l : list A) : list (Z * A) := enumerate_from 0 l.

(** [s.startswith(pre)] *)
Definition startswith (s pre : string) : bool := String.prefix pre s.

(** [sub in s] *)
Fixpoint contains (sub s : string) : bool :=
  String.prefix sub s ||
  match s with
  | EmptyString => false
  | String _ s' => contains sub s'
  end.

(** [s.find(sub)]: the lowest index at which [sub] occurs, or [-1]. *)
Fixpoint find_from (i : Z) (sub s : string) : Z :=
  if String.prefix sub s then i
  else match s with
       | EmptyString => -1
       | String _ s' => find_from (i + 1) sub s'
       end.

Definition find (s sub : string) : Z := find_from 0 sub s.

(** [s.count(sub)] counts occurrences that do not overlap, scanning from
    the left; [skip] is the number of characters still covered by the
    occurrence found last.  The empty [sub] occurs [len(s) + 1] times. *)
Fixpoint count_go (sub : string) (skip : nat) (s : string) : Z :=
  match s with
  | EmptyString => 0
  | String _ s' =>
      match skip with
      | S k => count_go sub k s'
      | O => if String.prefix sub s
             then 1 + count_go sub (String.length sub - 1)%nat s'
             else count_go sub 0 s'
      end
  end.

Definition count (s sub : string) : Z :=
  match sub with
  | EmptyString => strlen s + 1
  | _ => count_go sub 0 s
  end.

(** [s.replace(old, new)] replaces the occurrences [count] counts.  With
    an empty [old], [new] is put before every character and at the end. *)
Fixpoint replace_go (old new : string) (skip : nat) (s : string) : string :=
  match s with
  | EmptyString => EmptyString
  | String c s' =>
      match skip with
      | S k => replace_go old new k s'
      | O => if String.prefix old s
             then (new ++ replace_go old new (String.length old - 1)%nat s')%string
             else String c (replace_go old new 0 s')
      end
  end.

Fixpoint intersperse (new s : string) : string :=
  match s with
  | EmptyString => new
  | String c s' => (new ++ String c (intersperse new s'))%string
  end.

Definition replace (s old new : string) : string :=
  match old with
  | EmptyString => intersperse new s
  | _ => replace_go old new 0 s
  end.

(** [s[lo:hi]]: each bound is counted from the end when negative, then
    clamped to [0, len(s)]. *)
Definition clamp (n i : Z) : Z :=
  if i <? 0 then Z.max 0 (i + n) else Z.min i n.

Definition slice (s : string) (lo hi : Z) : string :=
  let l := clamp (strlen s) lo in
  let h := clamp (strlen s) hi in
  String.substring (Z.to_nat l) (Z.to_nat (h - l)) s.

Definition slice_to (s : string) (hi : Z) : string := slice s 0 hi.

Definition slice_from (s : string) (lo : Z) : string := slice s lo (strlen s).

(** ["\n".join(l)] *)
Definition newline : string := String (ascii_of_nat 10) EmptyString.

Definition join_lines (l : list string) : string := String.concat newline l.

(** [sum(l)] *)
Definition sum (l : list Z) : Z := fold_right Z.add 0 l.

End Py.

(** ** The python-docx document tree

    A python-docx object is a proxy for an lxml element; the tools read and
    write the element through it.  The embedding keeps the elements: the
    body is the list of the children of [w:body], a table the list of the
    children of its [w:tbl], a row the list of its [w:tc] cells.  An lxml
    element has one parent and one position among its siblings, so it is
    identified here by its position. *)

Module Docx.

(** [WD_PARAGRAPH_ALIGNMENT], the members the tools name. *)
Inductive Alignment := LEFT | CENTER | RIGHT | JUSTIFY.

(** [RGBColor(r, g, b)] *)
Record RGBColor := mkRGB { red : Z; green : Z; blue : Z }.

(** A run: its text and the formatting the tools read and write.  [None]
    is the inherited (unset) value.  [run_font_size] is a [Length] in EMU. *)
Record Run := mkRun {
  run_text : string;
  run_bold : option bool;
  run_italic : option bool;
  run_underline : option bool;
  run_font_size : option Z;
  run_font_name : option string;
  run_east_asia : option string;
  run_color : option RGBColor
}.

(** A paragraph style of the styles part.  Two style proxies are [==] when
    they wrap the same [w:style] element. *)
Record Style := mkStyle { style_id : string; style_name : string }.

Definition style_eqb (a b : Style) : bool :=
  String.eqb (style_id a) (style_id b) && String.eqb (style_name a) (style_name b).

(** The default paragraph style of the template. *)
Definition Normal : Style := mkStyle "Normal" "Normal".

Record Paragraph := mkParagraph {
  par_style : Style;
  par_alignment : option Alignment;
  par_runs : list Run
}.

(** A leaf element kept as tag and attributes ([w:tblStyle], [w:gridCol]). *)
Record XmlElement := mkXml { xml_tag : string; xml_attrs : list (string * string) }.

(** A [w:tc]: the number of grid columns it covers and its paragraphs. *)
Record Tc := mkTc { tc_grid_span : nat; tc_paragraphs : list Paragraph }.

(** A [w:tr] is the list of its cells. *)
Definition Tr := list Tc.

(** The children of a [w:tbl]. *)
Inductive TblChild :=
| TblPr (children : list XmlElement)
| TblGrid (children : list XmlElement)
| TrChild (tr : Tr)
| OtherChild (e : XmlElement).

Definition Table := list TblChild.

(** The children of [w:body]. *)
Inductive Block :=
| BParagraph (p : Paragraph)
| BTable (t : Table)
| BSectPr.

Definition Document := list Block.

(** *** Reading *)

(** [run.text], [paragraph.text], [cell.text] *)
Definition plain_run (text : string) : Run :=
  mkRun text None None None None None None None.

Definition paragraph_text (p : Paragraph) : string :=
  String.concat "" (map run_text (par_runs p)).

Definition cell_text (c : Tc) : string :=
  Py.join_lines (map paragraph_text (tc_paragraphs c)).

(** [document.paragraphs], [document.tables]: the [w:p] and the [w:tbl]
    children of the body, in document order. *)
Fixpoint paragraphs (d : Document) : list Paragraph :=
  match d with
  | [] => []
  | BParagraph p :: d' => p :: paragraphs d'
  | _ :: d' => paragraphs d'
  end.

Fixpoint tables (d : Document) : list Table :=
  match d with
  | [] => []
  | BTable t :: d' => t :: tables d'
  | _ :: d' => tables d'
  end.

(** [table.rows]: the [w:tr] children. *)
Fixpoint rows (t : Table) : list Tr :=
  match t with
  | [] => []
  | TrChild r :: t' => r :: rows t'
  | _ :: t' => rows t'
  end.

(** [tbl.xpath('./w:tblPr')], [tbl.xpath('./w:tblGrid')]: the matching
    children, each given by the list of its own children. *)
Fixpoint xpath_tblPr (t : Table) : list (list XmlElement) :=
  match t with
  | [] => []
  | TblPr c :: t' => c :: xpath_tblPr t'
  | _ :: t' => xpath_tblPr t'
  end.

Fixpoint xpath_tblGrid (t : Table) : list (list XmlElement) :=
  match t with
  | [] => []
  | TblGrid c :: t' => c :: xpath_tblGrid t'
  | _ :: t' => xpath_tblGrid t'
  end.

(** [len(table.columns)]: the number of [w:gridCol] children of the table
    grid; without a grid python-docx raises. *)
Definition is_gridCol (e : XmlElement) : bool := String.eqb (xml_tag e) "w:gridCol".

Definition column_count (t : Table) : option Z :=
  match xpath_tblGrid t with
  | [] => None
  | g :: _ => Some (Py.len (filter is_gridCol g))
  end.

(** [row.cells]: one cell proxy per grid column.  A cell that spans
    several grid columns is yielded once for each of them, every time as a
    proxy of the same [w:tc]; the proxies are given here by the position of
    their [w:tc] in the row.  (Vertical merges, where python-docx yields the
    cell of the row above for a continuation cell, are not represented: rows
    are independent of each other.) *)
Fixpoint row_cells_from (j : nat) (r : Tr) : list nat :=
  match r with
  | [] => []
  | c :: r' => repeat j (tc_grid_span c) ++ row_cells_from (S j) r'
  end.

Definition row_cells (r : Tr) : list nat := row_cells_from 0 r.

(** *** Writing *)

Definition remove_at {A} (i : nat) (l : list A) : list A :=
  firstn i l ++ skipn (S i) l.

Definition insert_at {A} (i : nat) (x : A) (l : list A) : list A :=
  firstn i l ++ x :: skipn i l.

Fixpoint update_at {A} (i : nat) (f : A -> A) (l : list A) : list A :=
  match l, i with
  | [], _ => []
  | x :: l', O => f x :: l'
  | x :: l', S i' => x :: update_at i' f l'
  end.

(** [paragraph.text = text]: the content is cleared and one run added. *)
Definition set_paragraph_text (text : string) (p : Paragraph) : Paragraph :=
  mkParagraph (par_style p) (par_alignment p) [plain_run text].

(** [paragraph.add_run(text)] *)
Definition add_run (text : string) (p : Paragraph) : Paragraph :=
  mkParagraph (par_style p) (par_alignment p) (par_runs p ++ [plain_run text]).

(** The body position of the [k]-th paragraph, of the last paragraph, and
    of the first [w:sectPr]. *)
Fixpoint paragraph_position_from (i : nat) (k : nat) (d : Document) : option nat :=
  match d with
  | [] => None
  | BParagraph _ :: d' =>
      match k with
      | O => Some i
      | S k' => paragraph_position_from (S i) k' d'
      end
  | _ :: d' => paragraph_position_from (S i) k d'
  end.

Definition paragraph_position (k : nat) (d : Document) : option nat :=
  paragraph_position_from 0 k d.

Definition last_paragraph_position (d : Document) : option nat :=
  match List.length (paragraphs d) with
  | O => None
  | S k => paragraph_position k d
  end.

Fixpoint sectPr_position_from (i : nat) (d : Document) : option nat :=
  match d with
  | [] => None
  | BSectPr :: _ => Some i
  | _ :: d' => sectPr_position_from (S i) d'
  end.

(** [document.add_paragraph()]: the new [w:p] goes before the [w:sectPr]
    that ends the body, and last when there is none.  The result is the new
    body and the position of the new paragraph. *)
Definition body_add_p (p : Paragraph) (d : Document) : Document * nat :=
  match sectPr_position_from 0 d with
  | Some i => (insert_at i (BParagraph p) d, i)
  | None => (d ++ [BParagraph p], List.length d)
  end.

(** lxml's [_findChild(parent, index)]: the child at [index], counted from
    the end when negative; [None] when there is no such child. *)
Definition find_child {A} (l : list A) (index : Z) : option nat :=
  if index <? 0
  then (if index + Py.len l <? 0 then None else Some (Z.to_nat (index + Py.len l)))
  else (if index <? Py.len l then Some (Z.to_nat index) else None).

(** lxml's [parent.insert(index, child)] for a [child] that is the [j]-th
    child of [parent] already.  lxml does not copy: the element is unlinked
    and linked again before the child found at [index] (last, when no child
    is found; nowhere else, when the child found is [child] itself). *)
Definition lxml_insert {A} (index : Z) (j : nat) (l : list A) : list A :=
  match nth_error l j with
  | None => l
  | Some x =>
      match find_child l index with
      | None => remove_at j l ++ [x]
      | Some i =>
          if (i =? j)%nat then l
          else if (i <? j)%nat then insert_at i x (remove_at j l)
          else insert_at (i - 1) x (remove_at j l)
      end
  end.

End Docx.

(** ** Responses and processor state *)

(** The exception classes that reach the [except Exception] clause of a
    tool. *)
Inductive Exn := ValueError | AttributeError | IndexError | LibraryError.

(** What a tool returns: one constructor for each message the tools build,
    carrying the values the message is formatted from. *)
Inductive Location :=
| InParagraph (index : Z)
| InTableCell (table_index row column : Z).

Record SearchHit := mkSearchHit { sh_location : Location; sh_text : string }.

Record ReplaceHit := mkReplaceHit {
  rh_location : Location;
  rh_original : string;
  rh_replaced : string;
  rh_count : Z
}.

Inductive Response :=
| No_document_is_open
| No_tables_in_document
| Failed (tool : string) (e : Exn)
| Paragraph_added
| Added_table (rows cols : Z)
| Paragraph_index_out_of_range (paragraph_index paragraph_count : Z)
| Table_index_out_of_range (table_index table_count : Z)
| Start_position_out_of_range (start_pos length : Z)
| End_position_invalid (end_pos low high : Z)
| Deleted_text (start_pos end_pos paragraph_index : Z)
| Keyword_not_found (keyword : string)
| Found (keyword : string) (hits : list SearchHit)
| Replace_report (preview_only : bool) (keyword replace_with : string)
                 (locations occurrences : Z) (hits : list ReplaceHit)
| Replaced_occurrences (find_text replace_text : string) (replace_count : Z)
| Title_not_found (section_title : string)
| Replaced_content_under_title (section_title : string)
| Replaced_paragraphs_containing_keyword (keyword : string)
| Start_row_index_out_of_range (start_row row_count : Z)
| Start_column_index_out_of_range (start_col column_count : Z)
| End_row_index_invalid (end_row low high : Z)
| End_column_index_invalid (end_col low high : Z)
| Merged_cells (table_index start_row start_col end_row end_col : Z)
| Row_index_invalid (row_index high : Z)
| Split_table_after_row (table_index row_index : Z).

(** The responses that report that the tool did what it was asked. *)
Definition is_success (r : Response) : bool :=
  match r with
  | Paragraph_added | Added_table _ _ | Deleted_text _ _ _ | Found _ _
  | Replace_report _ _ _ _ _ _ | Replaced_occurrences _ _ _
  | Replaced_content_under_title _
  | Replaced_paragraphs_containing_keyword _
  | Merged_cells _ _ _ _ _ | Split_table_after_row _ _ => true
  | _ => false
  end.

Definition is_error (r : Response) : bool := negb (is_success r).

(** [processor.current_document] *)
Definition State := option Docx.Document.

(** The state a block of statements leaves, normally or by an exception:
    nothing is rolled back when an exception is caught. *)
Inductive Outcome :=
| Done (d : Docx.Document)
| Raised (e : Exn) (d : Docx.Document).

Definition respond (tool : string) (ok : Response) (o : Outcome) : Response * State :=
  match o with
  | Done d => (ok, Some d)
  | Raised e d => (Failed tool e, Some d)
  end.

(** ** [tools/content.py] *)

Module Content.
Import Docx.

(** *** Range replacement: the statements [replace_section] and
    [edit_section_by_keyword] share, from "Save original paragraph style"
    to the end of the insertion loop. *)

Record RunInfo := mkRunInfo {
  ri_bold : option bool;
  ri_italic : option bool;
  ri_underline : option bool;
  ri_font_size : option Z;
  ri_font_name : option string;
  ri_color : option RGBColor
}.

Record StyleInfo := mkStyleInfo {
  si_style : option Style;
  si_alignment : option Alignment;
  si_runs : list RunInfo
}.

Definition run_info (r : Run) : RunInfo :=
  mkRunInfo (run_bold r) (run_italic r) (run_underline r)
            (run_font_size r) (run_font_name r) (run_color r).

Definition style_info (para : Paragraph) : StyleInfo :=
  mkStyleInfo (Some (par_style para)) (par_alignment para)
              (map run_info (par_runs para)).

Definition default_style_info : StyleInfo := mkStyleInfo None None [].

(** [original_styles.append(original_styles[-1])], or the default. *)
Definition pad (original_styles : list StyleInfo) : list StyleInfo :=
  match original_styles with
  | [] => [default_style_info]
  | _ => original_styles ++ [last original_styles default_style_info]
  end.

Definition capture_step (paras : list Paragraph) (original_styles : list StyleInfo)
    (i : Z) : list StyleInfo :=
  if i <? Py.len paras then
    match Py.getitem paras i with
    | Some para => original_styles ++ [style_info para]
    | None => original_styles
    end
  else pad original_styles.

(** The [for] loop that saves the styles, then the [while] loop that fills
    the list up to [len(new_content)]; each round of the latter adds one
    entry. *)
Definition capture_styles (paras : list Paragraph) (start end_index n_new : Z)
    : list StyleInfo :=
  let saved := fold_left (capture_step paras)
                 (Py.range start (Z.min end_index (start + n_new))) [] in
  Nat.iter (Z.to_nat (n_new - Py.len saved)) pad saved.

(** [doc.paragraphs[i]._element], then [p.getparent().remove(p)] *)
Definition paragraph_at (i : Z) (d : Document) : option nat :=
  let n := Py.len (paragraphs d) in
  if i <? 0
  then (if i + n <? 0 then None else paragraph_position (Z.to_nat (i + n)) d)
  else paragraph_position (Z.to_nat i) d.

Fixpoint delete_paragraphs (indices : list Z) (d : Document) : Outcome :=
  match indices with
  | [] => Done d
  | i :: rest =>
      match paragraph_at i d with
      | None => Raised IndexError d
      | Some j => delete_paragraphs rest (remove_at j d)
      end
  end.

(** Python truth values of the saved attributes. *)
Definition truthy_size (v : option Z) : option Z :=
  match v with
  | Some n => if n =? 0 then None else Some n
  | None => None
  end.

Definition truthy_name (v : option string) : option string :=
  match v with
  | Some EmptyString => None
  | _ => v
  end.

(** The statements between [p = doc.add_paragraph()] and the move. *)
Definition stamp (style_info : StyleInfo) (content : string) (p : Paragraph)
    : Paragraph :=
  let p1 := match si_style style_info with
            | Some s => mkParagraph s (par_alignment p) (par_runs p)
            | None => p
            end in
  let p2 := match si_alignment style_info with
            | Some a => mkParagraph (par_style p1) (Some a) (par_runs p1)
            | None => p1
            end in
  match si_runs style_info with
  | run_info :: _ =>
      let run := mkRun content (ri_bold run_info) (ri_italic run_info)
                   (ri_underline run_info)
                   (truthy_size (ri_font_size run_info))
                   (truthy_name (ri_font_name run_info))
                   (truthy_name (ri_font_name run_info))
                   (ri_color run_info) in
      mkParagraph (par_style p2) (par_alignment p2) (par_runs p2 ++ [run])
  | [] => set_paragraph_text content p2
  end.

Definition stamp_block (style_info : StyleInfo) (content : string) (b : Block)
    : Block :=
  match b with
  | BParagraph p => BParagraph (stamp style_info content p)
  | _ => b
  end.

(** One round of the insertion loop: a paragraph is added at the end of the
    body and filled in; [doc._body._body.insert(insert_position, p._p)]
    moves it; then the paragraph that is last in the document at that
    moment, [doc.paragraphs[-1]], is removed. *)
Definition insert_step (insert_position : Z) (original_styles : list StyleInfo)
    (n_new : Z) (i : Z) (content : string) (d : Document) : Outcome :=
  let (d1, j) := body_add_p (mkParagraph Normal None []) d in
  match Py.getitem original_styles (n_new - i - 1) with
  | None => Raised IndexError d1
  | Some style_info =>
      let d2 := update_at j (stamp_block style_info content) d1 in
      let d3 := lxml_insert insert_position j d2 in
      match last_paragraph_position d3 with
      | None => Raised IndexError d3
      | Some k => Done (remove_at k d3)
      end
  end.

Fixpoint insert_all (insert_position : Z) (original_styles : list StyleInfo)
    (n_new : Z) (todo : list (Z * string)) (d : Document) : Outcome :=
  match todo with
  | [] => Done d
  | (i, content) :: rest =>
      match insert_step insert_position original_styles n_new i content d with
      | Done d' => insert_all insert_position original_styles n_new rest d'
      | Raised e d' => Raised e d'
      end
  end.

Definition replace_range (start end_index : Z) (new_content : list string)
    (d : Document) : Outcome :=
  let n_new := Py.len new_content in
  let original_styles := capture_styles (paragraphs d) start end_index n_new in
  let insert_position := start in
  match delete_paragraphs (Py.range_down (end_index - 1) (start - 1)) d with
  | Raised e d' => Raised e d'
  | Done d' =>
      insert_all insert_position original_styles n_new
        (Py.enumerate (rev new_content)) d'
  end.

(** *** [replace_section] *)

(** The first index whose paragraph contains the title, or [-1]. *)
Fixpoint find_title_from (i : Z) (section_title : string) (paras : list Paragraph) : Z :=
  match paras with
  | [] => -1
  | paragraph :: rest =>
      if Py.contains section_title (paragraph_text paragraph) then i
      else find_title_from (i + 1) section_title rest
  end.

Definition find_title (section_title : string) (paras : list Paragraph) : Z :=
  find_title_from 0 section_title paras.

(** The test of the loop that looks for the end of the section. *)
Definition ends_section (title_style : Style) (para : Paragraph) : bool :=
  Py.startswith (style_name (par_style para)) "Heading"
  && (String.leb (style_name (par_style para)) (style_name title_style)
      || style_eqb (par_style para) title_style).

(** [for i in range(title_index + 1, len(doc.paragraphs))], walking the
    paragraphs from [title_index + 1] on; [end_index] keeps its initial
    value, [len(doc.paragraphs)], when the loop does not break. *)
Fixpoint section_end_from (title_style : Style) (i : Z) (rest : list Paragraph)
    (end_index : Z) : Z :=
  match rest with
  | [] => end_index
  | para :: rest' =>
      if ends_section title_style para then i
      else section_end_from title_style (i + 1) rest' end_index
  end.

Definition section_end (title_style : Style) (title_index : Z)
    (paras : list Paragraph) : Z :=
  section_end_from title_style (title_index + 1)
    (skipn (Z.to_nat (title_index + 1)) paras) (Py.len paras).

Definition replace_section (section_title : string) (new_content : list string)
    (preserve_title : bool) (st : State) : Response * State :=
  match st with
  | None => (No_document_is_open, st)
  | Some doc =>
      let title_index := find_title section_title (paragraphs doc) in
      if title_index =? -1 then (Title_not_found section_title, st)
      else
        match Py.getitem (paragraphs doc) title_index with
        | None => (Failed "replace content" IndexError, st)
        | Some title_paragraph =>
            let title_style := par_style title_paragraph in
            let end_index := section_end title_style title_index (paragraphs doc) in
            let start_delete := title_index + (if preserve_title then 1 else 0) in
            respond "replace content" (Replaced_content_under_title section_title)
              (replace_range start_delete end_index new_content doc)
        end
  end.

(** *** [edit_section_by_keyword] *)




(** *** [delete_text] *)

Definition delete_text (paragraph_index start_pos end_pos : Z) (st : State)
    : Response * State :=
  match st with
  | None => (No_document_is_open, st)
  | Some doc =>
      let n := Py.len (paragraphs doc) in
      if (paragraph_index <? 0) || (paragraph_index >=? n)
      then (Paragraph_index_out_of_range paragraph_index n, st)
      else
        match Py.getitem (paragraphs doc) paragraph_index,
              paragraph_at paragraph_index doc with
        | Some paragraph, Some j =>
            let text := paragraph_text paragraph in
            if (start_pos <? 0) || (start_pos >=? Py.strlen text)
            then (Start_position_out_of_range start_pos (Py.strlen text), st)
            else if (end_pos <=? start_pos) || (end_pos >? Py.strlen text)
            then (End_position_invalid end_pos (start_pos + 1) (Py.strlen text), st)
            else
              let new_text := (Py.slice_to text start_pos
                               ++ Py.slice_from text end_pos)%string in
              (Deleted_text start_pos end_pos paragraph_index,
               Some (update_at j (fun b => match b with
                                           | BParagraph p =>
                                               BParagraph (set_paragraph_text new_text p)
                                           | _ => b
                                           end) doc))
        | _, _ => (Failed "delete text" IndexError, st)
        end
  end.

(** *** [search_text] *)

Fixpoint search_paragraphs (keyword : string) (i : Z) (paras : list Paragraph)
    : list SearchHit :=
  match paras with
  | [] => []
  | paragraph :: rest =>
      if Py.contains keyword (paragraph_text paragraph)
      then mkSearchHit (InParagraph i) (paragraph_text paragraph)
           :: search_paragraphs keyword (i + 1) rest
      else search_paragraphs keyword (i + 1) rest
  end.

(** [for c_idx, cell in enumerate(row.cells)]: [cells] are the positions of
    the [w:tc] behind the proxies, [r] is the row. *)
Fixpoint search_cells (keyword : string) (t_idx r_idx : Z) (cells : list (Z * nat))
    (r : Tr) : list SearchHit :=
  match cells with
  | [] => []
  | (c_idx, j) :: rest =>
      match nth_error r j with
      | Some cell =>
          if Py.contains keyword (cell_text cell)
          then mkSearchHit (InTableCell t_idx r_idx c_idx) (cell_text cell)
               :: search_cells keyword t_idx r_idx rest r
          else search_cells keyword t_idx r_idx rest r
      | None => search_cells keyword t_idx r_idx rest r
      end
  end.

Fixpoint search_rows (keyword : string) (t_idx r_idx : Z) (trs : list Tr)
    : list SearchHit :=
  match trs with
  | [] => []
  | row :: rest =>
      search_cells keyword t_idx r_idx (Py.enumerate (row_cells row)) row
      ++ search_rows keyword t_idx (r_idx + 1) rest
  end.

Fixpoint search_tables (keyword : string) (t_idx : Z) (tbls : list Table)
    : list SearchHit :=
  match tbls with
  | [] => []
  | table :: rest =>
      search_rows keyword t_idx 0 (rows table)
      ++ search_tables keyword (t_idx + 1) rest
  end.

Definition search_text (keyword : string) (st : State) : Response * State :=
  match st with
  | None => (No_document_is_open, st)
  | Some doc =>
      let results := search_paragraphs keyword 0 (paragraphs doc)
                     ++ search_tables keyword 0 (tables doc) in
      match results with
      | [] => (Keyword_not_found keyword, st)
      | _ => (Found keyword results, st)
      end
  end.

(** The line [search_text] prints for a hit: the first 100 characters of
    the text, and an ellipsis when there are more. *)
Definition shown_text (text : string) : string :=
  (Py.slice_to text 100 ++ (if Py.strlen text >? 100 then "..." else ""))%string.

(** *** [search_and_replace] *)

(** The paragraph loop: the hits, and the paragraphs as the loop leaves
    them. *)
Fixpoint replace_paragraphs (keyword replace_with : string) (preview_only : bool)
    (i : Z) (d : Document) : list ReplaceHit * Document :=
  match d with
  | [] => ([], [])
  | BParagraph paragraph :: rest =>
      if Py.contains keyword (paragraph_text paragraph) then
        let original_text := paragraph_text paragraph in
        let replaced_text := Py.replace original_text keyword replace_with in
        let hit := mkReplaceHit (InParagraph i) original_text replaced_text
                     (Py.count original_text keyword) in
        let paragraph' := if preview_only then paragraph
                          else set_paragraph_text replaced_text paragraph in
        let (hits, rest') :=
          replace_paragraphs keyword replace_with preview_only (i + 1) rest in
        (hit :: hits, BParagraph paragraph' :: rest')
      else
        let (hits, rest') :=
          replace_paragraphs keyword replace_with preview_only (i + 1) rest in
        (hits, BParagraph paragraph :: rest')
  | b :: rest =>
      let (hits, rest') :=
        replace_paragraphs keyword replace_with preview_only i rest in
      (hits, b :: rest')
  end.

(** [for para in cell.paragraphs: if keyword in para.text: ...] *)
Definition replace_in_paragraph (keyword replace_with : string) (para : Paragraph)
    : Paragraph :=
  if Py.contains keyword (paragraph_text para)
  then set_paragraph_text (Py.replace (paragraph_text para) keyword replace_with) para
  else para.

Definition replace_in_cell (keyword replace_with : string) (cell : Tc) : Tc :=
  mkTc (tc_grid_span cell)
       (map (replace_in_paragraph keyword replace_with) (tc_paragraphs cell)).

(** The loop over [row.cells]: the cell behind a proxy is read when the
    loop reaches the proxy, and written before the next proxy is read. *)
Fixpoint replace_cells (keyword replace_with : string) (preview_only : bool)
    (t_idx r_idx : Z) (cells : list (Z * nat)) (r : Tr) : list ReplaceHit * Tr :=
  match cells with
  | [] => ([], r)
  | (c_idx, j) :: rest =>
      match nth_error r j with
      | Some cell =>
          if Py.contains keyword (cell_text cell) then
            let original_text := cell_text cell in
            let replaced_text := Py.replace original_text keyword replace_with in
            let hit := mkReplaceHit (InTableCell t_idx r_idx c_idx) original_text
                         replaced_text (Py.count original_text keyword) in
            let r' := if preview_only then r
                      else update_at j (replace_in_cell keyword replace_with) r in
            let (hits, r'') :=
              replace_cells keyword replace_with preview_only t_idx r_idx rest r' in
            (hit :: hits, r'')
          else replace_cells keyword replace_with preview_only t_idx r_idx rest r
      | None => replace_cells keyword replace_with preview_only t_idx r_idx rest r
      end
  end.

Fixpoint replace_rows (keyword replace_with : string) (preview_only : bool)
    (t_idx r_idx : Z) (t : Table) : list ReplaceHit * Table :=
  match t with
  | [] => ([], [])
  | TrChild row :: rest =>
      let (hits, row') :=
        replace_cells keyword replace_with preview_only t_idx r_idx
          (Py.enumerate (row_cells row)) row in
      let (hits', rest') :=
        replace_rows keyword replace_with preview_only t_idx (r_idx + 1) rest in
      (hits ++ hits', TrChild row' :: rest')
  | c :: rest =>
      let (hits', rest') :=
        replace_rows keyword replace_with preview_only t_idx r_idx rest in
      (hits', c :: rest')
  end.

Fixpoint replace_tables (keyword replace_with : string) (preview_only : bool)
    (t_idx : Z) (d : Document) : list ReplaceHit * Document :=
  match d with
  | [] => ([], [])
  | BTable table :: rest =>
      let (hits, table') :=
        replace_rows keyword replace_with preview_only t_idx 0 table in
      let (hits', rest') :=
        replace_tables keyword replace_with preview_only (t_idx + 1) rest in
      (hits ++ hits', BTable table' :: rest')
  | b :: rest =>
      let (hits', rest') :=
        replace_tables keyword replace_with preview_only t_idx rest in
      (hits', b :: rest')
  end.

Definition search_and_replace (keyword replace_with : string) (preview_only : bool)
    (st : State) : Response * State :=
  match st with
  | None => (No_document_is_open, st)
  | Some doc =>
      let (hits_p, doc1) :=
        replace_paragraphs keyword replace_with preview_only 0 doc in
      let (hits_t, doc2) :=
        replace_tables keyword replace_with preview_only 0 doc1 in
      let results := hits_p ++ hits_t in
      match results with
      | [] => (Keyword_not_found keyword, Some doc2)
      | _ =>
          let total_replacements := Py.sum (map rh_count results) in
          (Replace_report preview_only keyword replace_with (Py.len results)
             total_replacements results, Some doc2)
      end
  end.

(** The two excerpts the report shows for a hit. *)
Definition excerpts (keyword : string) (hit : ReplaceHit) : string * string :=
  let max_display := 50 in
  if Py.strlen (rh_original hit) >? max_display * 2 then
    let start_pos := Z.max 0 (Py.find (rh_original hit) keyword - max_display) in
    ("..." ++ Py.slice (rh_original hit) start_pos (start_pos + max_display * 2) ++ "...",
     "..." ++ Py.slice (rh_replaced hit) start_pos (start_pos + max_display * 2) ++ "...")%string
  else (rh_original hit, rh_replaced hit).

(** *** [find_and_replace] *)

Definition find_in_paragraph (find_text replace_text : string) (paragraph : Paragraph)
    : Z * Paragraph :=
  if Py.contains find_text (paragraph_text paragraph) then
    let paragraph' :=
      set_paragraph_text (Py.replace (paragraph_text paragraph) find_text replace_text)
        paragraph in
    (Py.count (paragraph_text paragraph') replace_text, paragraph')
  else (0, paragraph).

Fixpoint find_in_paragraphs (find_text replace_text : string) (paras : list Paragraph)
    : Z * list Paragraph :=
  match paras with
  | [] => (0, [])
  | paragraph :: rest =>
      let (n, paragraph') := find_in_paragraph find_text replace_text paragraph in
      let (m, rest') := find_in_paragraphs find_text replace_text rest in
      (n + m, paragraph' :: rest')
  end.

Fixpoint find_in_body (find_text replace_text : string) (d : Document)
    : Z * Document :=
  match d with
  | [] => (0, [])
  | BParagraph paragraph :: rest =>
      let (n, paragraph') := find_in_paragraph find_text replace_text paragraph in
      let (m, rest') := find_in_body find_text replace_text rest in
      (n + m, BParagraph paragraph' :: rest')
  | b :: rest =>
      let (m, rest') := find_in_body find_text replace_text rest in
      (m, b :: rest')
  end.

Fixpoint find_in_cells (find_text replace_text : string) (cells : list nat) (r : Tr)
    : Z * Tr :=
  match cells with
  | [] => (0, r)
  | j :: rest =>
      match nth_error r j with
      | Some cell =>
          let (n, paras') :=
            find_in_paragraphs find_text replace_text (tc_paragraphs cell) in
          let r' := update_at j (fun c => mkTc (tc_grid_span c) paras') r in
          let (m, r'') := find_in_cells find_text replace_text rest r' in
          (n + m, r'')
      | None => find_in_cells find_text replace_text rest r
      end
  end.

Fixpoint find_in_rows (find_text replace_text : string) (t : Table) : Z * Table :=
  match t with
  | [] => (0, [])
  | TrChild row :: rest =>
      let (n, row') := find_in_cells find_text replace_text (row_cells row) row in
      let (m, rest') := find_in_rows find_text replace_text rest in
      (n + m, TrChild row' :: rest')
  | c :: rest =>
      let (m, rest') := find_in_rows find_text replace_text rest in
      (m, c :: rest')
  end.

Fixpoint find_in_tables (find_text replace_text : string) (d : Document)
    : Z * Document :=
  match d with
  | [] => (0, [])
  | BTable table :: rest =>
      let (n, table') := find_in_rows find_text replace_text table in
      let (m, rest') := find_in_tables find_text replace_text rest in
      (n + m, BTable table' :: rest')
  | b :: rest =>
      let (m, rest') := find_in_tables find_text replace_text rest in
      (m, b :: rest')
  end.

Definition find_and_replace (find_text replace_text : string) (st : State)
    : Response * State :=
  match st with
  | None => (No_document_is_open, st)
  | Some doc =>
      let (n, doc1) := find_in_body find_text replace_text doc in
      let (m, doc2) := find_in_tables find_text replace_text doc1 in
      (Replaced_occurrences find_text replace_text (n + m), Some doc2)
  end.

(** *** [add_paragraph] *)

(** [int(s, 16)]: surrounding white space is dropped; a sign, the prefix
    [0x] and single underscores between digits are accepted; [None] stands
    for [ValueError]. *)
Definition is_space (c : ascii) : bool :=
  let n := Z.of_nat (nat_of_ascii c) in
  ((9 <=? n) && (n <=? 13)) || ((28 <=? n) && (n <=? 32)).

Definition hex_digit (c : ascii) : option Z :=
  let n := Z.of_nat (nat_of_ascii c) in
  if (48 <=? n) && (n <=? 57) then Some (n - 48)
  else if (97 <=? n) && (n <=? 102) then Some (n - 87)
  else if (65 <=? n) && (n <=? 70) then Some (n - 55)
  else None.

Fixpoint lstrip (s : list ascii) : list ascii :=
  match s with
  | c :: s' => if is_space c then lstrip s' else s
  | [] => []
  end.

Definition strip (s : list ascii) : list ascii := rev (lstrip (rev (lstrip s))).

Fixpoint hex_digits (acc : Z) (after_digit : bool) (s : list ascii) : option Z :=
  match s with
  | [] => if after_digit then Some acc else None
  | c :: s' =>
      if Ascii.eqb c "_"
      then (if after_digit then hex_digits acc false s' else None)
      else match hex_digit c with
           | Some v => hex_digits (16 * acc + v) true s'
           | None => None
           end
  end.

Definition drop_0x (s : list ascii) : list ascii :=
  match s with
  | z :: x :: s' =>
      if Ascii.eqb z "0" && (Ascii.eqb x "x" || Ascii.eqb x "X")
      then match s' with
           | u :: s'' => if Ascii.eqb u "_" then s'' else s'
           | [] => s'
           end
      else s
  | _ => s
  end.

Definition int16 (s : string) : option Z :=
  match strip (list_ascii_of_string s) with
  | [] => None
  | c :: rest =>
      if Ascii.eqb c "-"
      then option_map Z.opp (hex_digits 0 false (drop_0x rest))
      else if Ascii.eqb c "+"
      then hex_digits 0 false (drop_0x rest)
      else hex_digits 0 false (drop_0x (c :: rest))
  end.














End Content.

(** ** [tools/table.py] *)

Module TableTools.
Import Docx.

(** The body position of [doc.tables[k]]. *)
Fixpoint table_position_from (i : nat) (k : nat) (d : Document) : option nat :=
  match d with
  | [] => None
  | BTable _ :: d' =>
      match k with
      | O => Some i
      | S k' => table_position_from (S i) k' d'
      end
  | _ :: d' => table_position_from (S i) k d'
  end.

Definition table_position (k : nat) (d : Document) : option nat :=
  table_position_from 0 k d.

(** *** [add_table] *)

(** [cell.text = text]: the content of the cell is replaced by one
    paragraph with one run. *)
Definition set_cell_text (text : string) (c : Tc) : Tc :=
  mkTc (tc_grid_span c) [mkParagraph Normal None [plain_run text]].

(** The table python-docx creates for [add_table(rows, cols)] with the
    style "Table Grid": properties, a grid of [cols] columns, and [rows]
    rows of [cols] cells that hold one empty paragraph each. *)
Definition empty_cell : Tc := mkTc 1 [mkParagraph Normal None []].

Definition new_table (n_rows n_cols : Z) : Table :=
  TblPr [mkXml "w:tblStyle" [("w:val", "TableGrid")];
         mkXml "w:tblW" [("w:type", "auto"); ("w:w", "0")];
         mkXml "w:tblLook" [("w:val", "04A0")]]
  :: TblGrid (repeat (mkXml "w:gridCol" []) (Z.to_nat n_cols))
  :: repeat (TrChild (repeat empty_cell (Z.to_nat n_cols))) (Z.to_nat n_rows).

(** [for j, cell_text in enumerate(row_data): if j < cols:
    row.cells[j].text = str(cell_text)] on a row without merged cells. *)
Fixpoint fill_row (n_cols : Z) (j : Z) (row_data : list string) (r : Tr) : Tr :=
  match row_data with
  | [] => r
  | cell_text :: rest =>
      fill_row n_cols (j + 1) rest
        (if j <? n_cols then update_at (Z.to_nat j) (set_cell_text cell_text) r else r)
  end.

Fixpoint fill_rows (n_cols : Z) (data : list (list string)) (t : Table) : Table :=
  match t with
  | [] => []
  | TrChild r :: t' =>
      match data with
      | [] => t
      | row_data :: data' => TrChild (fill_row n_cols 0 row_data r) :: fill_rows n_cols data' t'
      end
  | c :: t' => c :: fill_rows n_cols data t'
  end.

(** [document.add_table] puts the new [w:tbl] before the [w:sectPr] that
    ends the body, as [add_paragraph] does with a paragraph. *)
Definition add_table (n_rows n_cols : Z) (data : option (list (list string)))
    (st : State) : Response * State :=
  match st with
  | None => (No_document_is_open, st)
  | Some doc =>
      let table := new_table n_rows n_cols in
      let table' := match data with
                    | Some rows_data => fill_rows n_cols rows_data table
                    | None => table
                    end in
      (Added_table n_rows n_cols,
       Some (match sectPr_position_from 0 doc with
             | Some i => insert_at i (BTable table') doc
             | None => doc ++ [BTable table']
             end))
  end.

(** *** [merge_table_cells] *)

Section Merge.

(** [table.cell(start_row, start_col).merge(table.cell(end_row, end_col))]
    is python-docx code; the tool is embedded for any behaviour of it.  The
    result is the table it leaves and the exception it raises, if any. *)
Variable cell_merge : Z -> Z -> Z -> Z -> Table -> Table * option Exn.

Definition merge_table_cells (table_index start_row start_col end_row end_col : Z)
    (st : State) : Response * State :=
  match st with
  | None => (No_document_is_open, st)
  | Some doc =>
      match tables doc with
      | [] => (No_tables_in_document, st)
      | _ =>
          let n := Py.len (tables doc) in
          if (table_index <? 0) || (table_index >=? n)
          then (Table_index_out_of_range table_index n, st)
          else
            match Py.getitem (tables doc) table_index,
                  table_position (Z.to_nat table_index) doc with
            | Some table, Some k =>
                let n_rows := Py.len (rows table) in
                if (start_row <? 0) || (start_row >=? n_rows)
                then (Start_row_index_out_of_range start_row n_rows, st)
                else
                  match column_count table with
                  | None => (Failed "merge table cells" LibraryError, st)
                  | Some n_cols =>
                      if (start_col <? 0) || (start_col >=? n_cols)
                      then (Start_column_index_out_of_range start_col n_cols, st)
                      else if (end_row <? start_row) || (end_row >=? n_rows)
                      then (End_row_index_invalid end_row start_row (n_rows - 1), st)
                      else if (end_col <? start_col) || (end_col >=? n_cols)
                      then (End_column_index_invalid end_col start_col (n_cols - 1), st)
                      else
                        let (table', raised) :=
                          cell_merge start_row start_col end_row end_col table in
                        let doc' := update_at k (fun b => match b with
                                                          | BTable _ => BTable table'
                                                          | _ => b
                                                          end) doc in
                        match raised with
                        | None => (Merged_cells table_index start_row start_col
                                     end_row end_col, Some doc')
                        | Some e => (Failed "merge table cells" e, Some doc')
                        end
                  end
            | _, _ => (Failed "merge table cells" IndexError, st)
            end
      end
  end.

End Merge.

(** *** [split_table] *)

(** [child.copy()]: an lxml element has no attribute [copy] (elements are
    copied with the [copy] module), so evaluating the call raises
    [AttributeError]; [None] stands for it. *)
Definition element_copy (child : XmlElement) : option XmlElement := None.

(** [for child in children: new_tbl.append(child.copy())] *)
Fixpoint append_copies (children : list XmlElement) (new_tbl : Table) : option Table :=
  match children with
  | [] => Some new_tbl
  | child :: rest =>
      match element_copy child with
      | Some c => append_copies rest (new_tbl ++ [OtherChild c])
      | None => None
      end
  end.

(** [new_tbl.append(rows[i])] for [i] from [split_position] on moves the
    rows: the table keeps its other children and its first
    [split_position] rows. *)
Fixpoint keep_rows (split_position : nat) (t : Table) : Table :=
  match t with
  | [] => []
  | TrChild r :: t' =>
      match split_position with
      | O => keep_rows O t'
      | S n => TrChild r :: keep_rows n t'
      end
  | c :: t' => c :: keep_rows split_position t'
  end.

Definition split_table (table_index row_index : Z) (st : State) : Response * State :=
  match st with
  | None => (No_document_is_open, st)
  | Some doc =>
      match tables doc with
      | [] => (No_tables_in_document, st)
      | _ =>
          let n := Py.len (tables doc) in
          if (table_index <? 0) || (table_index >=? n)
          then (Table_index_out_of_range table_index n, st)
          else
            match Py.getitem (tables doc) table_index,
                  table_position (Z.to_nat table_index) doc with
            | Some tbl, Some k =>
                let n_rows := Py.len (rows tbl) in
                if (row_index <? 0) || (row_index >=? n_rows - 1)
                then (Row_index_invalid row_index (n_rows - 2), st)
                else
                  let split_position := row_index + 1 in
                  match xpath_tblPr tbl with
                  | [] => (Failed "split table" IndexError, st)
                  | pr :: _ =>
                      match append_copies pr [] with
                      | None => (Failed "split table" AttributeError, st)
                      | Some new_tbl1 =>
                          match xpath_tblGrid tbl with
                          | [] => (Failed "split table" IndexError, st)
                          | grid :: _ =>
                              match append_copies grid new_tbl1 with
                              | None => (Failed "split table" AttributeError, st)
                              | Some new_tbl2 =>
                                  let moved :=
                                    skipn (Z.to_nat split_position) (rows tbl) in
                                  let new_tbl := new_tbl2 ++ map TrChild moved in
                                  let tbl' := keep_rows (Z.to_nat split_position) tbl in
                                  (Split_table_after_row table_index row_index,
                                   Some (firstn k doc ++ BTable tbl'
                                         :: BTable new_tbl :: skipn (S k) doc))
                              end
                          end
                      end
                  end
            | _, _ => (Failed "split table" IndexError, st)
            end
      end
  end.

End TableTools.

(** ** Documents used in the scenarios *)

Module Scenario.
Import Docx.

Definition Heading_1 : Style := mkStyle "Heading1" "Heading 1".

Definition paragraph_of (s : Style) (text : string) : Block :=
  BParagraph (mkParagraph s None [plain_run text]).

(** The paragraphs "Title A" (Heading 1), "Hello", "Title B" (Heading 1),
    "World", in a body that ends with the section properties, as the body
    of a document made by python-docx does, and in a body without them. *)
Definition four_paragraphs : list Block :=
  [paragraph_of Heading_1 "Title A"; paragraph_of Normal "Hello";
   paragraph_of Heading_1 "Title B"; paragraph_of Normal "World"].

Definition titled_document : Document := four_paragraphs ++ [BSectPr].

Definition titled_document_bare : Document := four_paragraphs.

Definition texts (st : State) : list string :=
  match st with
  | Some d => map paragraph_text (paragraphs d)
  | None => []
  end.

(** The document after [create_document] and
    [add_table(2, 2, [["a","b"],["c","d"]])]. *)
Definition table_document : State :=
  snd (TableTools.add_table 2 2 (Some [["a"; "b"]; ["c"; "d"]]) (Some [BSectPr])).

(** A table of one row whose two grid columns are covered by one merged
    cell with the text [text], as [merge_table_cells(0, 0, 0, 0, 1)] leaves
    a table of one row and two columns. *)
Definition merged_cell_document (text : string) : Document :=
  [BTable [TblPr []; TblGrid [mkXml "w:gridCol" []; mkXml "w:gridCol" []];
           TrChild [mkTc 2 [mkParagraph Normal None [plain_run text]]]];
   BSectPr].

(** What a response reports about its hits: where, and how many
    occurrences. *)
Definition reported (r : Response) : list (Location * Z) :=
  match r with
  | Replace_report _ _ _ _ _ hits => map (fun h => (rh_location h, rh_count h)) hits
  | _ => []
  end.

(** The texts of the cells of the tables, table by table and row by row. *)
Definition cell_texts (st : State) : list (list (list string)) :=
  match st with
  | Some d => map (fun t => map (map cell_text) (rows t)) (tables d)
  | None => []
  end.

Definition table_count (st : State) : Z :=
  match st with
  | Some d => Py.len (tables d)
  | None => 0
  end.

End Scenario.

(** ** The specification's wording of the ranges and of a colour *)

Module Spec.
Import Docx.


(** "A paragraph whose style name begins with Heading and whose style name
    is lexicographically <= the anchor paragraph's style name". *)
Definition closes_section (anchor_name : string) (p : Paragraph) : bool :=
  Py.startswith (style_name (par_style p)) "Heading"
  && String.leb (style_name (par_style p)) anchor_name.

(** "The index of the first paragraph after the anchor" that closes the
    section; "if no such paragraph exists, the range extends to the end of
    the document". *)
Definition heading_boundary (anchor_name : string) (anchor_index : Z)
    (paras : list Paragraph) : Z :=
  match List.find (fun ip => (anchor_index <? fst ip)
                             && closes_section anchor_name (snd ip))
                  (Py.enumerate paras) with
  | Some ip => fst ip
  | None => Py.len paras
  end.

(** The paragraphs outside the range [start, stop). *)
Definition outside_range {A} (start stop : Z) (l : list A) : list A :=
  firstn (Z.to_nat start) l ++ skipn (Z.to_nat (Z.max start stop)) l.

(** A body of paragraphs only, with or without the section properties
    that end it. *)
Definition plain_body (ps : list Paragraph) (sectPr : bool) : Document :=
  map BParagraph ps ++ (if sectPr then [BSectPr] else []).


















End Spec.

(** ** The other tools of [tools/content.py] and [tools/table.py] *)

(** What these tools return: the messages they share with the tools above,
    and their own. *)
Inductive Reply :=
| Shared (r : Response)
| Paragraph_deleted (paragraph_index : Z)
| Added_heading (level : Z)
| Added_row (table_index : Z)
| Deleted_row (row_index table_index : Z)
| Row_index_out_of_range (row_index row_count : Z)
| Column_index_out_of_range (col_index column_count : Z)
| Cell_modified (row_index col_index table_index : Z).


Module ContentRest.
Import Docx.

(** *** [delete_paragraph] *)

Definition delete_paragraph (paragraph_index : Z) (st : State) : Reply * State :=
  match st with
  | None => (Shared No_document_is_open, st)
  | Some doc =>
      let n := Py.len (paragraphs doc) in
      if (paragraph_index <? 0) || (paragraph_index >=? n)
      then (Shared (Paragraph_index_out_of_range paragraph_index n), st)
      else
        match Content.paragraph_at paragraph_index doc with
        | Some j => (Paragraph_deleted paragraph_index, Some (remove_at j doc))
        | None => (Shared (Failed "delete paragraph" IndexError), st)
        end
  end.

(** *** [add_heading] *)

Section Heading.

(** The styles part of the document: the paragraph style python-docx finds
    for a style name, if there is one. *)
Variable style_named : string -> option Style.

(** ["Title" if level == 0 else "Heading %d" % level], for the levels
    [0..9] python-docx accepts. *)
Definition heading_style_name (level : Z) : string :=
  if level =? 0 then "Title"
  else ("Heading " ++ String (ascii_of_nat (48 + Z.to_nat level)) EmptyString)%string.


End Heading.

End ContentRest.

Module TableRest.
Import Docx.

(** [doc.tables[k]] rewritten in place. *)
Definition update_table (k : nat) (f : Table -> Table) (d : Document) : Document :=
  update_at k (fun b => match b with
                        | BTable t => BTable (f t)
                        | _ => b
                        end) d.

(** *** [add_table_row] *)


(** *** [delete_table_row] *)

(** [row.getparent().remove(row)] for [row = table.rows[k]._tr] *)
Fixpoint remove_row (k : nat) (t : Table) : Table :=
  match t with
  | [] => []
  | TrChild r :: t' =>
      match k with
      | O => t'
      | S k' => TrChild r :: remove_row k' t'
      end
  | c :: t' => c :: remove_row k t'
  end.

Definition delete_table_row (table_index row_index : Z) (st : State)
    : Reply * State :=
  match st with
  | None => (Shared No_document_is_open, st)
  | Some doc =>
      match tables doc with
      | [] => (Shared No_tables_in_document, st)
      | _ =>
          let n := Py.len (tables doc) in
          if (table_index <? 0) || (table_index >=? n)
          then (Shared (Table_index_out_of_range table_index n), st)
          else
            match Py.getitem (tables doc) table_index,
                  TableTools.table_position (Z.to_nat table_index) doc with
            | Some table, Some k =>
                let n_rows := Py.len (rows table) in
                if (row_index <? 0) || (row_index >=? n_rows)
                then (Row_index_out_of_range row_index n_rows, st)
                else (Deleted_row row_index table_index,
                      Some (update_table k (remove_row (Z.to_nat row_index)) doc))
            | _, _ => (Shared (Failed "delete table row" IndexError), st)
            end
      end
  end.

(** *** [edit_table_cell] *)





End TableRest.

(** ** What the answers of the tools say *)

Module Observe.
Import Docx.

(** What [search_text] found, whatever the answer is. *)
Definition found_hits (r : Response) : list SearchHit :=
  match r with
  | Found _ hits => hits
  | _ => []
  end.

(** What the report says about one hit is what Python computes from its
    original text. *)
Definition hit_consistent (keyword replace_with : string) (h : ReplaceHit) : Prop :=
  Py.contains keyword (rh_original h) = true
  /\ rh_replaced h = Py.replace (rh_original h) keyword replace_with
  /\ rh_count h = Py.count (rh_original h) keyword
  /\ 1 <= rh_count h.

End Observe.

(** ** Tables as grids *)

Module Grid.
Import Docx.


(** The texts of the cells, row by row. *)
Definition texts (t : Table) : list (list string) := map (map cell_text) (rows t).


(** The body that [add_table(2, 2, [["a", "b"], ["c", "d"]])] leaves of a
    document with one paragraph. *)
Definition two_by_two : Document :=
  match TableTools.add_table 2 2 (Some [["a"; "b"]; ["c"; "d"]])
          (Some [BParagraph (mkParagraph Normal None [plain_run "intro"]);
                 BSectPr]) with
  | (_, Some d) => d
  | (_, None) => []
  end.

End Grid.

(** * Properties *)

Import Docx.

(** ** The Python built-ins on examples *)

Example py_replace_1 : Py.replace "aXbXc" "X" "--" = "a--b--c".
Proof. reflexivity. Qed.
Example py_replace_2 : Py.replace "aaa" "aa" "b" = "ba".
Proof. reflexivity. Qed.
Example py_replace_3 : Py.replace "abc" "" "-" = "-a-b-c-".
Proof. reflexivity. Qed.
Example py_count_1 : Py.count "aaaa" "aa" = 2.
Proof. reflexivity. Qed.
Example py_count_2 : Py.count "abc" "" = 4.
Proof. reflexivity. Qed.
Example py_find_1 : Py.find "hello" "l" = 2 /\ Py.find "hello" "z" = -1.
Proof. split; reflexivity. Qed.
Example py_slice_1 : Py.slice "#A1B2C3" 1 3 = "A1".
Proof. reflexivity. Qed.
Example py_in_1 : Py.contains "lo W" "Hello World" = true.
Proof. reflexivity. Qed.
Example py_range_down_1 : Py.range_down 3 0 = [3; 2; 1].
Proof. reflexivity. Qed.
Example py_int16_1 :
  Content.int16 "fF" = Some 255 /\ Content.int16 "GG" = None
  /\ Content.int16 " 7" = Some 7 /\ Content.int16 "-1" = Some (-1)
  /\ Content.int16 "0x" = None /\ Content.int16 "_1" = None.
Proof. repeat split; reflexivity. Qed.


(** ** Arithmetic on the guards *)

Lemma geb_false_iff (a b : Z) : (a >=? b) = false <-> a < b.
Proof. rewrite Z.geb_leb, Z.leb_gt. reflexivity. Qed.

Lemma gtb_false_iff (a b : Z) : (a >? b) = false <-> a <= b.
Proof. rewrite Z.gtb_ltb, Z.ltb_ge. reflexivity. Qed.

Lemma is_error_Failed (tool : string) (e : Exn) : is_error (Failed tool e) = true.
Proof. reflexivity. Qed.

(** ** [replace_section] on the scenario of the titled document *)

(** C1.  On the paragraphs "Title A" (Heading 1), "Hello", "Title B"
    (Heading 1), "World", [replace_section("Title A", ["NewLine1",
    "NewLine2"], preserve_title=True)] reports success, and the paragraphs
    it leaves are "Title A", "NewLine1", "NewLine2": every round of the
    insertion loop moves the new paragraph to its place and then removes the
    paragraph that is last in the document, so "World" and then "Title B"
    are lost.  The expected texts "Title A", "NewLine1", "NewLine2",
    "Title B", "World" are not what the tool leaves, with or without
    section properties at the end of the body. *)
Theorem replace_section_scenario_loses_trailing_paragraphs :
  let new_content := ["NewLine1"; "NewLine2"] in
  let expected := ["Title A"; "NewLine1"; "NewLine2"; "Title B"; "World"] in
  let r := Content.replace_section "Title A" new_content true
             (Some Scenario.titled_document) in
  let r' := Content.replace_section "Title A" new_content true
              (Some Scenario.titled_document_bare) in
  fst r = Replaced_content_under_title "Title A"
  /\ Scenario.texts (snd r) = ["Title A"; "NewLine1"; "NewLine2"]
  /\ Scenario.texts (snd r) <> expected
  /\ fst r' = Replaced_content_under_title "Title A"
  /\ Scenario.texts (snd r') = ["Title A"; "NewLine1"; "NewLine2"]
  /\ Scenario.texts (snd r') <> expected.
Proof.
  cbv zeta. repeat split; try reflexivity; vm_compute; discriminate.
Qed.

(** ** [split_table] on a table made by [add_table] *)

(** C2.  On the table made by [add_table(2, 2, [["a","b"],["c","d"]])],
    which has two rows, [split_table(0, 0)] is called with a row index in
    [0 .. rows - 2]; it does not succeed: copying the first table property
    raises, the tool answers with its failure message, the document still
    has one table and that table still has its two rows. *)
Theorem split_table_fails_on_added_table :
  let r := TableTools.split_table 0 0 Scenario.table_document in
  Scenario.table_count Scenario.table_document = 1
  /\ Scenario.cell_texts Scenario.table_document = [[["a"; "b"]; ["c"; "d"]]]
  /\ fst r = Failed "split table" AttributeError
  /\ is_success (fst r) = false
  /\ snd r = Scenario.table_document
  /\ Scenario.table_count (snd r) = 1.
Proof.
  cbv zeta. repeat split; reflexivity.
Qed.

(** ** [search_and_replace]: preview and replacement *)

Lemma replace_paragraphs_preview (keyword replace_with : string) (d : Document) :
  forall i, snd (Content.replace_paragraphs keyword replace_with true i d) = d.
Proof.
  induction d as [| b d IH]; intros i; simpl; [reflexivity |].
  destruct b as [p | t |].
  - destruct (Py.contains keyword (paragraph_text p)).
    + specialize (IH (i + 1)).
      destruct (Content.replace_paragraphs keyword replace_with true (i + 1) d).
      simpl in *. now rewrite IH.
    + specialize (IH (i + 1)).
      destruct (Content.replace_paragraphs keyword replace_with true (i + 1) d).
      simpl in *. now rewrite IH.
  - specialize (IH i).
    destruct (Content.replace_paragraphs keyword replace_with true i d).
    simpl in *. now rewrite IH.
  - specialize (IH i).
    destruct (Content.replace_paragraphs keyword replace_with true i d).
    simpl in *. now rewrite IH.
Qed.

Lemma replace_cells_preview (keyword replace_with : string) (t_idx r_idx : Z)
    (cells : list (Z * nat)) :
  forall r, snd (Content.replace_cells keyword replace_with true t_idx r_idx cells r) = r.
Proof.
  induction cells as [| [c_idx j] cells IH]; intros r; simpl; [reflexivity |].
  destruct (nth_error r j) as [cell |]; [| apply IH].
  destruct (Py.contains keyword (cell_text cell)); [| apply IH].
  specialize (IH r).
  destruct (Content.replace_cells keyword replace_with true t_idx r_idx cells r).
  exact IH.
Qed.

Lemma replace_rows_preview (keyword replace_with : string) (t_idx : Z) (t : Table) :
  forall r_idx, snd (Content.replace_rows keyword replace_with true t_idx r_idx t) = t.
Proof.
  induction t as [| c t IH]; intros r_idx; simpl; [reflexivity |].
  destruct c as [pr | g | row | e];
    try (specialize (IH r_idx);
         destruct (Content.replace_rows keyword replace_with true t_idx r_idx t);
         simpl in *; now rewrite IH).
  pose proof (replace_cells_preview keyword replace_with t_idx r_idx
                (Py.enumerate (row_cells row)) row) as Hrow.
  destruct (Content.replace_cells keyword replace_with true t_idx r_idx
              (Py.enumerate (row_cells row)) row).
  specialize (IH (r_idx + 1)).
  destruct (Content.replace_rows keyword replace_with true t_idx (r_idx + 1) t).
  simpl in *. now rewrite Hrow, IH.
Qed.

Lemma replace_tables_preview (keyword replace_with : string) (d : Document) :
  forall t_idx, snd (Content.replace_tables keyword replace_with true t_idx d) = d.
Proof.
  induction d as [| b d IH]; intros t_idx; simpl; [reflexivity |].
  destruct b as [p | t |];
    try (specialize (IH t_idx);
         destruct (Content.replace_tables keyword replace_with true t_idx d);
         simpl in *; now rewrite IH).
  pose proof (replace_rows_preview keyword replace_with t_idx t 0) as Ht.
  destruct (Content.replace_rows keyword replace_with true t_idx 0 t).
  specialize (IH (t_idx + 1)).
  destruct (Content.replace_tables keyword replace_with true (t_idx + 1) d).
  simpl in *. now rewrite Ht, IH.
Qed.

(** The preview never writes: the state after it is the state before. *)
Lemma search_and_replace_preview_unchanged (keyword replace_with : string) (st : State) :
  snd (Content.search_and_replace keyword replace_with true st) = st.
Proof.
  destruct st as [doc |]; [| reflexivity].
  unfold Content.search_and_replace.
  pose proof (replace_paragraphs_preview keyword replace_with doc 0) as Hp.
  destruct (Content.replace_paragraphs keyword replace_with true 0 doc) as [hp d1].
  simpl in Hp. subst d1.
  pose proof (replace_tables_preview keyword replace_with doc 0) as Ht.
  destruct (Content.replace_tables keyword replace_with true 0 doc) as [ht d2].
  simpl in Ht. subst d2.
  destruct (hp ++ ht); reflexivity.
Qed.

(** C3.  On a table whose two grid columns are covered by one merged cell
    with the text "x", the preview of [search_and_replace("x", "y")] leaves
    the cell text as it is and reports two locations, columns 0 and 1 of
    row 0, with one occurrence each; the replacement run on the same
    document reports column 0 only: the cell is rewritten when the loop
    reaches its first proxy and does not contain the keyword any more when
    it reaches the second.  The two reports are not identical. *)
Theorem search_and_replace_preview_differs_on_merged_cell :
  let doc := Some (Scenario.merged_cell_document "x") in
  let preview := Content.search_and_replace "x" "y" true doc in
  let actual := Content.search_and_replace "x" "y" false doc in
  snd preview = doc
  /\ Scenario.reported (fst preview) = [(InTableCell 0 0 0, 1); (InTableCell 0 0 1, 1)]
  /\ Scenario.reported (fst actual) = [(InTableCell 0 0 0, 1)]
  /\ Scenario.cell_texts (snd actual) = [[["y"]]]
  /\ Scenario.reported (fst preview) <> Scenario.reported (fst actual).
Proof.
  cbv zeta. repeat split; try reflexivity; vm_compute; discriminate.
Qed.

(** ** [find_and_replace] *)

(** C7.  On a table whose two grid columns are covered by one merged cell
    with the text "a", [find_and_replace("a", "aa")] visits the cell once
    for each grid column: the paragraph becomes "aa" and then "aaaa", and
    the count returned is 1 + 2 = 3.  Replacing every occurrence of "a" in
    "a" gives "aa", in which "aa" occurs once; in the text the tool leaves,
    "aaaa", it occurs twice.  The count returned is neither. *)
Theorem find_and_replace_repeats_on_merged_cell :
  let r := Content.find_and_replace "a" "aa" (Some (Scenario.merged_cell_document "a")) in
  fst r = Replaced_occurrences "a" "aa" 3
  /\ Scenario.cell_texts (snd r) = [[["aaaa"]]]
  /\ Py.replace "a" "a" "aa" = "aa"
  /\ Py.count (Py.replace "a" "a" "aa") "aa" = 1
  /\ Py.count "aaaa" "aa" = 2.
Proof.
  cbv zeta. repeat split; reflexivity.
Qed.

(** ** [search_text] *)

(** C10.  [search_text] is read-only: for every keyword and every state of
    the processor, with a document open or not and with or without a match,
    the state after the call is the state before it, so every paragraph and
    every table of the document is what it was. *)
Theorem search_text_read_only (keyword : string) (st : State) :
  snd (Content.search_text keyword st) = st.
Proof.
  destruct st as [doc |]; [| reflexivity].
  unfold Content.search_text.
  destruct (Content.search_paragraphs keyword 0 (paragraphs doc)
            ++ Content.search_tables keyword 0 (tables doc)); reflexivity.
Qed.

(** ** [delete_text] *)

(** C4.  With a document open, [delete_text(p, s, e)] with [e <= s], or
    with [s] outside [0, len(text))] for the text of paragraph [p], returns
    an error message and leaves the document, and so the text of every
    paragraph, as it was. *)
Theorem delete_text_rejects_bad_range (doc : Document) (p s e : Z) :
  e <= s
  \/ (forall paragraph, Py.getitem (paragraphs doc) p = Some paragraph ->
      s < 0 \/ Py.strlen (paragraph_text paragraph) <= s) ->
  is_error (fst (Content.delete_text p s e (Some doc))) = true
  /\ snd (Content.delete_text p s e (Some doc)) = Some doc.
Proof.
  intros H. unfold Content.delete_text.
  destruct ((p <? 0) || (p >=? Py.len (paragraphs doc))); [split; reflexivity |].
  destruct (Py.getitem (paragraphs doc) p) as [paragraph |] eqn:Hget;
    [| split; reflexivity].
  destruct (Content.paragraph_at p doc) as [j |]; [| split; reflexivity].
  destruct ((s <? 0) || (s >=? Py.strlen (paragraph_text paragraph))) eqn:Hs;
    [split; reflexivity |].
  destruct ((e <=? s) || (e >? Py.strlen (paragraph_text paragraph))) eqn:He;
    [split; reflexivity |].
  exfalso.
  apply orb_false_iff in Hs. destruct Hs as [Hs1 Hs2].
  apply orb_false_iff in He. destruct He as [He1 He2].
  apply Z.ltb_ge in Hs1. apply geb_false_iff in Hs2. apply Z.leb_gt in He1.
  destruct H as [H | H]; [lia |].
  destruct (H paragraph eq_refl); lia.
Qed.

Lemma delete_text_rejects_bad_range_witness :
  let doc := Scenario.titled_document in
  (3 <= 3
   \/ (forall paragraph, Py.getitem (paragraphs doc) 1 = Some paragraph ->
       3 < 0 \/ Py.strlen (paragraph_text paragraph) <= 3))
  /\ is_error (fst (Content.delete_text 1 3 3 (Some doc))) = true
  /\ snd (Content.delete_text 1 3 3 (Some doc)) = Some doc.
Proof.
  cbv zeta. split; [left; lia |].
  apply (delete_text_rejects_bad_range Scenario.titled_document 1 3 3).
  left. lia.
Defined.

(** ** [merge_table_cells] *)

(** C5.  With a document open that has tables, [merge_table_cells] with
    [end_row < start_row] or [end_col < start_col] returns an error message
    and leaves the document, and so the grid of every table, as it was,
    whatever the merge of python-docx would do. *)
Theorem merge_table_cells_rejects_inverted_range
    (cell_merge : Z -> Z -> Z -> Z -> Table -> Table * option Exn)
    (doc : Document) (table_index start_row start_col end_row end_col : Z) :
  tables doc <> [] ->
  end_row < start_row \/ end_col < start_col ->
  is_error (fst (TableTools.merge_table_cells cell_merge table_index
                   start_row start_col end_row end_col (Some doc))) = true
  /\ snd (TableTools.merge_table_cells cell_merge table_index
            start_row start_col end_row end_col (Some doc)) = Some doc.
Proof.
  intros Htables H. unfold TableTools.merge_table_cells.
  destruct (tables doc) as [| t0 ts] eqn:Ht; [contradiction |].
  destruct ((table_index <? 0) || (table_index >=? Py.len (t0 :: ts)));
    [split; reflexivity |].
  destruct (Py.getitem (t0 :: ts) table_index) as [table |]; [| split; reflexivity].
  destruct (TableTools.table_position (Z.to_nat table_index) doc) as [k |];
    [| split; reflexivity].
  destruct ((start_row <? 0) || (start_row >=? Py.len (rows table)));
    [split; reflexivity |].
  destruct (column_count table) as [n_cols |]; [| split; reflexivity].
  destruct ((start_col <? 0) || (start_col >=? n_cols)); [split; reflexivity |].
  destruct ((end_row <? start_row) || (end_row >=? Py.len (rows table))) eqn:Hr;
    [split; reflexivity |].
  destruct ((end_col <? start_col) || (end_col >=? n_cols)) eqn:Hc;
    [split; reflexivity |].
  exfalso.
  apply orb_false_iff in Hr. destruct Hr as [Hr _].
  apply orb_false_iff in Hc. destruct Hc as [Hc _].
  apply Z.ltb_ge in Hr. apply Z.ltb_ge in Hc. lia.
Qed.

Lemma merge_table_cells_rejects_inverted_range_witness :
  let merge := fun (_ _ _ _ : Z) (t : Table) => (t, @None Exn) in
  let st := Scenario.table_document in
  Scenario.table_count st = 1
  /\ 0 < 1
  /\ is_error (fst (TableTools.merge_table_cells merge 0 1 0 0 1 st)) = true
  /\ snd (TableTools.merge_table_cells merge 0 1 0 0 1 st) = st.
Proof.
  cbv zeta. split; [reflexivity |]. split; [lia |].
  refine (merge_table_cells_rejects_inverted_range _
            (match Scenario.table_document with Some d => d | None => [] end)
            0 1 0 0 1 _ _).
  - vm_compute. discriminate.
  - left. lia.
Defined.

(** ** Removing paragraphs from the body *)

Lemma remove_at_cons {A} (x : A) (l : list A) (j : nat) :
  remove_at (S j) (x :: l) = x :: remove_at j l.
Proof. reflexivity. Qed.

Lemma paragraph_position_from_shift (d : Document) :
  forall i k, paragraph_position_from (S i) k d
              = option_map S (paragraph_position_from i k d).
Proof.
  induction d as [| b d IH]; intros i k; simpl; [reflexivity |].
  destruct b as [p | t |]; try apply IH.
  destruct k as [| k]; [reflexivity | apply IH].
Qed.

(** Removing the element behind [doc.paragraphs[k]] removes the [k]-th
    paragraph and nothing else. *)
Lemma remove_paragraph_position (d : Document) :
  forall k j, paragraph_position k d = Some j ->
    paragraphs (remove_at j d) = remove_at k (paragraphs d)
    /\ tables (remove_at j d) = tables d.
Proof.
  unfold paragraph_position.
  induction d as [| b d IH]; intros k j H; simpl in H; [discriminate |].
  destruct b as [p | t |].
  - destruct k as [| k].
    + injection H as <-. split; reflexivity.
    + rewrite paragraph_position_from_shift in H.
      destruct (paragraph_position_from 0 k d) as [j' |] eqn:Hj; [| discriminate].
      injection H as <-. destruct (IH k j' Hj) as [IH1 IH2].
      rewrite remove_at_cons. simpl. rewrite IH1, IH2. split; reflexivity.
  - rewrite paragraph_position_from_shift in H.
    destruct (paragraph_position_from 0 k d) as [j' |] eqn:Hj; [| discriminate].
    injection H as <-. destruct (IH k j' Hj) as [IH1 IH2].
    rewrite remove_at_cons. simpl. rewrite IH1, IH2. split; reflexivity.
  - rewrite paragraph_position_from_shift in H.
    destruct (paragraph_position_from 0 k d) as [j' |] eqn:Hj; [| discriminate].
    injection H as <-. destruct (IH k j' Hj) as [IH1 IH2].
    rewrite remove_at_cons. simpl. rewrite IH1, IH2. split; reflexivity.
Qed.

Lemma paragraph_position_defined (d : Document) :
  forall k, (k < List.length (paragraphs d))%nat ->
    exists j, paragraph_position k d = Some j.
Proof.
  unfold paragraph_position.
  induction d as [| b d IH]; intros k H; simpl in *; [lia |].
  destruct b as [p | t |]; simpl in H.
  - destruct k as [| k]; [now exists 0%nat |].
    rewrite paragraph_position_from_shift.
    destruct (IH k) as [j Hj]; [lia |]. rewrite Hj. now exists (S j).
  - rewrite paragraph_position_from_shift.
    destruct (IH k H) as [j Hj]. rewrite Hj. now exists (S j).
  - rewrite paragraph_position_from_shift.
    destruct (IH k H) as [j Hj]. rewrite Hj. now exists (S j).
Qed.

Lemma range_down_nil (a b : Z) : a <= b -> Py.range_down a b = [].
Proof.
  intros H. unfold Py.range_down.
  replace (Z.to_nat (a - b)) with 0%nat by lia. reflexivity.
Qed.

Lemma range_down_cons (a b : Z) :
  b < a -> Py.range_down a b = a :: Py.range_down (a - 1) b.
Proof.
  intros H. unfold Py.range_down.
  replace (Z.to_nat (a - b)) with (S (Z.to_nat (a - 1 - b))) by lia.
  simpl. f_equal; [lia |].
  rewrite <- seq_shift, map_map. apply map_ext. intros k. lia.
Qed.

Lemma firstn_remove_at {A} (l : list A) (s k : nat) :
  (s <= k)%nat -> firstn s (remove_at k l) = firstn s l.
Proof.
  intros H. unfold remove_at.
  destruct (Nat.le_gt_cases (List.length l) k) as [Hk | Hk].
  - rewrite (firstn_all2 l) by lia. rewrite (skipn_all2 l) by lia.
    now rewrite app_nil_r.
  - rewrite firstn_app, firstn_firstn, length_firstn.
    replace (Nat.min s k) with s by lia.
    replace (s - Nat.min k (List.length l))%nat with 0%nat by lia.
    simpl. now rewrite app_nil_r.
Qed.

Lemma skipn_remove_at {A} (l : list A) (k : nat) :
  (k < List.length l)%nat -> skipn k (remove_at k l) = skipn (S k) l.
Proof.
  intros H. unfold remove_at.
  rewrite skipn_app, length_firstn.
  replace (Nat.min k (List.length l)) with k by lia.
  rewrite skipn_firstn_comm. replace (k - k)%nat with 0%nat by lia.
  reflexivity.
Qed.

Lemma length_remove_at {A} (l : list A) (k : nat) :
  (k < List.length l)%nat -> List.length (remove_at k l) = (List.length l - 1)%nat.
Proof.
  intros H. unfold remove_at.
  rewrite length_app, length_firstn, length_skipn. lia.
Qed.

(** The deletion loop, run from [stop - 1] down to [start], removes the
    paragraphs of [start, stop) and nothing else. *)
Lemma delete_paragraphs_range (m : nat) :
  forall (d : Document) (start stop : Z),
    0 <= start -> stop = start + Z.of_nat m -> stop <= Py.len (paragraphs d) ->
    exists d',
      Content.delete_paragraphs (Py.range_down (stop - 1) (start - 1)) d = Done d'
      /\ paragraphs d' = firstn (Z.to_nat start) (paragraphs d)
                         ++ skipn (Z.to_nat stop) (paragraphs d)
      /\ tables d' = tables d.
Proof.
  induction m as [| m IH]; intros d start stop Hs He Hn.
  - rewrite range_down_nil by lia. exists d. simpl.
    replace stop with start by lia. now rewrite firstn_skipn.
  - rewrite range_down_cons by lia. simpl.
    unfold Py.len in Hn.
    unfold Content.paragraph_at.
    replace (stop - 1 <? 0) with false by (symmetry; apply Z.ltb_ge; lia).
    destruct (paragraph_position_defined d (Z.to_nat (stop - 1))) as [j Hj]; [lia |].
    rewrite Hj.
    destruct (remove_paragraph_position d _ _ Hj) as [Hp Ht].
    destruct (IH (remove_at j d) start (stop - 1)) as [d' [Hd [Hp' Ht']]];
      [lia | lia | |].
    + unfold Py.len. rewrite Hp, length_remove_at by lia. lia.
    + exists d'. split; [exact Hd |]. split; [| congruence].
      rewrite Hp', Hp.
      rewrite firstn_remove_at by lia.
      rewrite skipn_remove_at by lia.
      do 2 f_equal. lia.
Qed.

Lemma delete_paragraphs_outside_range (d : Document) (start stop : Z) :
  0 <= start -> stop <= Py.len (paragraphs d) ->
  exists d',
    Content.delete_paragraphs (Py.range_down (stop - 1) (start - 1)) d = Done d'
    /\ paragraphs d' = Spec.outside_range start stop (paragraphs d)
    /\ tables d' = tables d.
Proof.
  intros Hs Hn. unfold Spec.outside_range.
  destruct (Z.le_gt_cases start stop) as [H | H].
  - destruct (delete_paragraphs_range (Z.to_nat (stop - start)) d start stop)
      as [d' Hd']; [lia | lia | lia |].
    exists d'. now replace (Z.max start stop) with stop by lia.
  - rewrite range_down_nil by lia. exists d. simpl.
    replace (Z.max start stop) with start by lia. now rewrite firstn_skipn.
Qed.

(** ** Keyword-anchored range: [edit_section_by_keyword] *)

Lemma enumerate_from_bounds {A} (f : Z * A -> bool) (l : list A) :
  forall i0 ip, List.find f (Py.enumerate_from i0 l) = Some ip ->
    i0 <= fst ip < i0 + Py.len l.
Proof.
  unfold Py.len.
  induction l as [| x l IH]; intros i0 ip H; simpl in H; [discriminate |].
  destruct (f (i0, x)).
  - injection H as <-. simpl. lia.
  - apply IH in H. simpl List.length. lia.
Qed.



(** ** Title-anchored range: [replace_section] *)

Lemma string_leb_refl (s : string) : String.leb s s = true.
Proof.
  unfold String.leb.
  pose proof (String.compare_antisym s s) as H.
  destruct (String.compare s s); simpl in H; try reflexivity; discriminate.
Qed.

Lemma style_eqb_name (a b : Style) :
  style_eqb a b = true -> style_name a = style_name b.
Proof.
  unfold style_eqb. intros H. apply andb_true_iff in H.
  now apply String.eqb_eq.
Qed.

(** The second disjunct of the test never decides: equal styles have equal
    names. *)
Lemma ends_section_closes (title_style : Style) (p : Paragraph) :
  Content.ends_section title_style p
  = Spec.closes_section (style_name title_style) p.
Proof.
  unfold Content.ends_section, Spec.closes_section. f_equal.
  destruct (style_eqb (par_style p) title_style) eqn:E.
  - apply style_eqb_name in E. rewrite E, string_leb_refl. reflexivity.
  - apply orb_false_r.
Qed.

Lemma section_end_from_find (title_style : Style) (anchor_index n : Z)
    (paras : list Paragraph) :
  forall i0,
    Content.section_end_from title_style (Z.max i0 (anchor_index + 1))
      (skipn (Z.to_nat (anchor_index + 1 - i0)) paras) n
    = match List.find (fun ip => (anchor_index <? fst ip)
                                 && Spec.closes_section (style_name title_style) (snd ip))
                      (Py.enumerate_from i0 paras) with
      | Some ip => fst ip
      | None => n
      end.
Proof.
  induction paras as [| p paras IH]; intros i0.
  - rewrite skipn_nil. reflexivity.
  - simpl List.find. simpl fst. simpl snd.
    destruct (Z.ltb_spec anchor_index i0) as [Hlt | Hge].
    + replace (Z.to_nat (anchor_index + 1 - i0)) with 0%nat by lia.
      replace (Z.max i0 (anchor_index + 1)) with i0 by lia.
      simpl. rewrite ends_section_closes.
      destruct (Spec.closes_section (style_name title_style) p); [reflexivity |].
      rewrite <- IH.
      replace (Z.to_nat (anchor_index + 1 - (i0 + 1))) with 0%nat by lia.
      replace (Z.max (i0 + 1) (anchor_index + 1)) with (i0 + 1) by lia.
      reflexivity.
    + replace (Z.to_nat (anchor_index + 1 - i0))
        with (S (Z.to_nat (anchor_index + 1 - (i0 + 1)))) by lia.
      simpl. rewrite <- IH. f_equal. lia.
Qed.

Lemma section_end_heading_boundary (title_style : Style) (anchor_index : Z)
    (paras : list Paragraph) :
  0 <= anchor_index ->
  Content.section_end title_style anchor_index paras
  = Spec.heading_boundary (style_name title_style) anchor_index paras.
Proof.
  intros H. unfold Content.section_end, Spec.heading_boundary, Py.enumerate.
  rewrite <- section_end_from_find.
  replace (Z.max 0 (anchor_index + 1)) with (anchor_index + 1) by lia.
  now rewrite Z.sub_0_r.
Qed.

Lemma heading_boundary_le (anchor_name : string) (anchor_index : Z)
    (paras : list Paragraph) :
  Spec.heading_boundary anchor_name anchor_index paras <= Py.len paras.
Proof.
  unfold Spec.heading_boundary, Py.enumerate.
  destruct (List.find _ (Py.enumerate_from 0 paras)) as [ip |] eqn:E; [| lia].
  apply enumerate_from_bounds in E. lia.
Qed.

Lemma find_title_from_bounds (section_title : string) (paras : list Paragraph) :
  forall i0, 0 <= i0 ->
    Content.find_title_from i0 section_title paras = -1
    \/ i0 <= Content.find_title_from i0 section_title paras < i0 + Py.len paras.
Proof.
  unfold Py.len.
  induction paras as [| p paras IH]; intros i0 H; simpl; [now left |].
  destruct (Py.contains section_title (paragraph_text p)).
  - right. lia.
  - destruct (IH (i0 + 1)) as [E | E]; [lia | now left | right; lia].
Qed.

(** C9.  In [replace_section], for the anchor paragraph found at
    [title_index], the end of the range that is replaced is the index of the
    first paragraph after the anchor whose style name begins with "Heading"
    and is lexicographically <= the style name of the anchor, and the number
    of paragraphs when there is none: the tool hands this end to the
    replacement, whose deletion loop removes exactly the paragraphs from the
    start of the range up to it. *)
Theorem replace_section_range_end (doc : Document) (section_title : string)
    (new_content : list string) (preserve_title : bool) :
  let paras := paragraphs doc in
  let title_index := Content.find_title section_title paras in
  title_index <> -1 ->
  exists anchor,
    Py.getitem paras title_index = Some anchor
    /\ let start := title_index + (if preserve_title then 1 else 0) in
       let stop := Spec.heading_boundary (style_name (par_style anchor))
                     title_index paras in
       Content.section_end (par_style anchor) title_index paras = stop
       /\ Content.replace_section section_title new_content preserve_title (Some doc)
          = respond "replace content" (Replaced_content_under_title section_title)
              (Content.replace_range start stop new_content doc)
       /\ exists d',
            Content.delete_paragraphs (Py.range_down (stop - 1) (start - 1)) doc
            = Done d'
            /\ paragraphs d' = Spec.outside_range start stop paras
            /\ tables d' = tables doc.
Proof.
  cbv zeta. intros Hfound.
  destruct (find_title_from_bounds section_title (paragraphs doc) 0) as [E | B];
    [lia | contradiction |].
  fold (Content.find_title section_title (paragraphs doc)) in B.
  set (ti := Content.find_title section_title (paragraphs doc)) in *.
  assert (Hget : exists anchor, Py.getitem (paragraphs doc) ti = Some anchor).
  { unfold Py.getitem.
    replace (ti <? 0) with false by (symmetry; apply Z.ltb_ge; lia).
    destruct (nth_error (paragraphs doc) (Z.to_nat ti)) as [a |] eqn:E;
      [now exists a |].
    apply nth_error_None in E. unfold Py.len in B. lia. }
  destruct Hget as [anchor Hget]. exists anchor. split; [exact Hget |].
  split; [apply section_end_heading_boundary; lia |].
  split.
  - unfold Content.replace_section. fold ti.
    replace (ti =? -1) with false by (symmetry; apply Z.eqb_neq; exact Hfound).
    rewrite Hget, section_end_heading_boundary by lia. reflexivity.
  - apply delete_paragraphs_outside_range.
    + destruct preserve_title; lia.
    + apply heading_boundary_le.
Qed.

Lemma replace_section_range_end_witness :
  let doc := Scenario.titled_document in
  Content.find_title "Title A" (paragraphs doc) <> -1
  /\ exists anchor,
       Py.getitem (paragraphs doc) (Content.find_title "Title A" (paragraphs doc))
       = Some anchor
       /\ Content.section_end (par_style anchor)
            (Content.find_title "Title A" (paragraphs doc)) (paragraphs doc)
          = Spec.heading_boundary (style_name (par_style anchor))
              (Content.find_title "Title A" (paragraphs doc)) (paragraphs doc).
Proof.
  cbv zeta.
  assert (H : Content.find_title "Title A" (paragraphs Scenario.titled_document) <> -1)
    by (vm_compute; discriminate).
  split; [exact H |].
  destruct (replace_section_range_end Scenario.titled_document "Title A"
              ["NewLine1"; "NewLine2"] true H) as [anchor [Hget [Hend _]]].
  exists anchor. split; [exact Hget | exact Hend].
Defined.

(** ** The colour argument of [add_paragraph] *)









(** ** Tables without merged cells *)


Lemma nth_error_update_at_ne {A} (f : A -> A) (l : list A) :
  forall i j, i <> j -> nth_error (update_at i f l) j = nth_error l j.
Proof.
  induction l as [| x l IH]; intros i j H; destruct i, j; simpl;
    try reflexivity; try contradiction.
  apply IH. congruence.
Qed.

Lemma enumerate_from_snd {A} (l : list A) :
  forall i, map snd (Py.enumerate_from i l) = l.
Proof.
  induction l as [| x l IH]; intros i; simpl; [reflexivity |].
  now rewrite IH.
Qed.







(** ** [find_and_replace] on documents without merged cells *)



Lemma update_at_middle {A} (f : A -> A) (pre : list A) (x : A) (suf : list A) :
  update_at (List.length pre) f (pre ++ x :: suf) = pre ++ f x :: suf.
Proof.
  induction pre as [| y pre IH]; simpl; [reflexivity |]. now rewrite IH.
Qed.

Lemma nth_error_middle {A} (pre : list A) (x : A) (suf : list A) :
  nth_error (pre ++ x :: suf) (List.length pre) = Some x.
Proof.
  induction pre as [| y pre IH]; simpl; [reflexivity | exact IH].
Qed.





(** ** The insertion loop on a body of paragraphs *)

Lemma paragraphs_plain (ps : list Paragraph) (sectPr : bool) :
  paragraphs (Spec.plain_body ps sectPr) = ps.
Proof.
  unfold Spec.plain_body.
  induction ps as [| p ps IH]; simpl; [now destruct sectPr | now rewrite IH].
Qed.

Lemma paragraph_position_plain (ps : list Paragraph) (sectPr : bool) :
  forall k, (k < List.length ps)%nat ->
    paragraph_position k (Spec.plain_body ps sectPr) = Some k.
Proof.
  unfold paragraph_position, Spec.plain_body.
  induction ps as [| p ps IH]; intros k H; simpl in *; [lia |].
  destruct k as [| k]; [reflexivity |].
  rewrite paragraph_position_from_shift, IH by lia. reflexivity.
Qed.

Lemma remove_at_plain (ps : list Paragraph) (sectPr : bool) (k : nat) :
  (k < List.length ps)%nat ->
  remove_at k (Spec.plain_body ps sectPr) = Spec.plain_body (remove_at k ps) sectPr.
Proof.
  intros H. unfold Spec.plain_body, remove_at.
  rewrite firstn_app, skipn_app, length_map.
  replace (k - List.length ps)%nat with 0%nat by lia.
  replace (S k - List.length ps)%nat with 0%nat by lia.
  rewrite firstn_O, skipn_O, app_nil_r, map_app, firstn_map, skipn_map, app_assoc.
  reflexivity.
Qed.

Lemma sectPr_position_plain (ps : list Paragraph) (sectPr : bool) :
  forall i, sectPr_position_from i (Spec.plain_body ps sectPr)
            = if sectPr then Some (i + List.length ps)%nat else None.
Proof.
  unfold Spec.plain_body.
  induction ps as [| p ps IH]; intros i.
  - destruct sectPr; simpl; [f_equal; lia | reflexivity].
  - simpl. rewrite IH. destruct sectPr; [f_equal; lia | reflexivity].
Qed.

Lemma body_add_p_plain (p : Paragraph) (ps : list Paragraph) (sectPr : bool) :
  body_add_p p (Spec.plain_body ps sectPr)
  = (Spec.plain_body (ps ++ [p]) sectPr, List.length ps).
Proof.
  unfold body_add_p. rewrite sectPr_position_plain.
  unfold Spec.plain_body. destruct sectPr; simpl.
  - unfold insert_at.
    rewrite firstn_app, skipn_app, length_map, Nat.sub_diag.
    rewrite firstn_all2, skipn_all2 by (rewrite length_map; lia).
    simpl. rewrite app_nil_r, map_app, <- app_assoc. reflexivity.
  - rewrite !app_nil_r, map_app, length_map. reflexivity.
Qed.

Lemma update_at_plain (f : Paragraph -> Paragraph) (ps : list Paragraph)
    (p : Paragraph) (sectPr : bool) :
  update_at (List.length ps)
    (fun b => match b with BParagraph q => BParagraph (f q) | _ => b end)
    (Spec.plain_body (ps ++ [p]) sectPr)
  = Spec.plain_body (ps ++ [f p]) sectPr.
Proof.
  unfold Spec.plain_body. rewrite !map_app, <- !app_assoc. simpl.
  rewrite <- (length_map BParagraph ps) at 1.
  now rewrite update_at_middle.
Qed.

(** Where lxml puts the paragraph that was added last when it is asked to
    insert it at a paragraph index of the body. *)
Lemma lxml_insert_plain (ps : list Paragraph) (x : Paragraph) (sectPr : bool)
    (s : nat) :
  (s <= List.length ps)%nat ->
  lxml_insert (Z.of_nat s) (List.length ps) (Spec.plain_body (ps ++ [x]) sectPr)
  = Spec.plain_body (firstn s ps ++ x :: skipn s ps) sectPr.
Proof.
  intros H. unfold lxml_insert.
  assert (Hnth : nth_error (Spec.plain_body (ps ++ [x]) sectPr) (List.length ps)
                 = Some (BParagraph x)).
  { unfold Spec.plain_body. rewrite map_app, <- app_assoc. simpl.
    rewrite <- (length_map BParagraph ps) at 1. apply nth_error_middle. }
  rewrite Hnth. unfold find_child.
  assert (Hlen : Py.len (Spec.plain_body (ps ++ [x]) sectPr)
                 = Z.of_nat (List.length ps) + 1 + (if sectPr then 1 else 0)).
  { unfold Py.len, Spec.plain_body.
    rewrite !length_app, length_map, length_app. simpl.
    destruct sectPr; simpl; lia. }
  rewrite Hlen.
  replace (Z.of_nat s <? 0) with false by (symmetry; apply Z.ltb_ge; lia).
  replace (Z.of_nat s <? Z.of_nat (List.length ps) + 1 + (if sectPr then 1 else 0))
    with true by (symmetry; apply Z.ltb_lt; destruct sectPr; lia).
  rewrite Nat2Z.id.
  destruct (Nat.eqb_spec s (List.length ps)) as [-> | Hne].
  - now rewrite firstn_all, skipn_all.
  - replace (s <? List.length ps)%nat with true
      by (symmetry; apply Nat.ltb_lt; lia).
    rewrite remove_at_plain by (rewrite length_app; simpl; lia).
    unfold remove_at.
    rewrite firstn_app, Nat.sub_diag, firstn_all, skipn_all2
      by (rewrite length_app; simpl; lia).
    simpl. rewrite !app_nil_r.
    unfold insert_at, Spec.plain_body.
    rewrite firstn_app, skipn_app, length_map.
    replace (s - List.length ps)%nat with 0%nat by lia. simpl.
    rewrite app_nil_r, !map_app, firstn_map, skipn_map, <- !app_assoc.
    reflexivity.
Qed.

Lemma last_paragraph_position_plain (ps : list Paragraph) (x : Paragraph)
    (sectPr : bool) :
  last_paragraph_position (Spec.plain_body (ps ++ [x]) sectPr)
  = Some (List.length ps).
Proof.
  unfold last_paragraph_position. rewrite paragraphs_plain, length_app.
  simpl. rewrite Nat.add_1_r.
  apply paragraph_position_plain. rewrite length_app. simpl. lia.
Qed.

Lemma remove_last_plain (ps : list Paragraph) (x : Paragraph) (sectPr : bool) :
  remove_at (List.length ps) (Spec.plain_body (ps ++ [x]) sectPr)
  = Spec.plain_body ps sectPr.
Proof.
  rewrite remove_at_plain by (rewrite length_app; simpl; lia).
  unfold remove_at.
  rewrite firstn_app, Nat.sub_diag, firstn_all, skipn_all2
    by (rewrite length_app; simpl; lia).
  simpl. now rewrite !app_nil_r.
Qed.

(** One round of the loop: the new paragraph [x] comes in at [s], and the
    paragraph that is last after that goes. *)
Lemma insert_step_plain (ps : list Paragraph) (sectPr : bool) (s : nat)
    (original_styles : list Content.StyleInfo) (n_new i : Z) (content : string)
    (style_info : Content.StyleInfo) :
  (s <= List.length ps)%nat ->
  Py.getitem original_styles (n_new - i - 1) = Some style_info ->
  Content.insert_step (Z.of_nat s) original_styles n_new i content
    (Spec.plain_body ps sectPr)
  = Done (Spec.plain_body
            (removelast (firstn s ps
                         ++ Content.stamp style_info content
                              (mkParagraph Normal None [])
                            :: skipn s ps)) sectPr).
Proof.
  intros Hs Hget. unfold Content.insert_step.
  rewrite body_add_p_plain, Hget.
  unfold Content.stamp_block.
  rewrite (update_at_plain (Content.stamp style_info content)).
  rewrite lxml_insert_plain by exact Hs.
  set (x := Content.stamp style_info content (mkParagraph Normal None [])).
  destruct (exists_last (l := firstn s ps ++ x :: skipn s ps)) as [qs [y Hq]].
  { destruct (firstn s ps); discriminate. }
  rewrite Hq, last_paragraph_position_plain.
  rewrite remove_last_plain, removelast_last. reflexivity.
Qed.

Lemma stamp_text (style_info : Content.StyleInfo) (content : string) :
  paragraph_text (Content.stamp style_info content (mkParagraph Normal None []))
  = content.
Proof.
  unfold Content.stamp, paragraph_text.
  destruct (Content.si_style style_info), (Content.si_alignment style_info),
    (Content.si_runs style_info); reflexivity.
Qed.

Lemma removelast_firstn_cons {A} (x : A) (l : list A) :
  removelast (x :: l) = firstn (List.length l) (x :: l).
Proof.
  revert x. induction l as [| y l IH]; intros x; [reflexivity |].
  change (removelast (x :: y :: l)) with (x :: removelast (y :: l)).
  rewrite IH. reflexivity.
Qed.

Lemma firstn_app_firstn {A} (m : nat) (a b : list A) :
  firstn m (a ++ firstn m b) = firstn m (a ++ b).
Proof.
  rewrite !firstn_app, firstn_firstn. do 2 f_equal. lia.
Qed.

(** The whole loop: the paragraphs before the insert position stay, and
    the tail keeps its length: it is the new content followed by the old
    tail, cut to the length of the old tail. *)
Lemma insert_all_plain (sectPr : bool) (s : nat)
    (original_styles : list Content.StyleInfo) (n_new : Z)
    (todo : list (Z * string)) :
  (forall ic, In ic todo ->
     exists style_info,
       Py.getitem original_styles (n_new - fst ic - 1) = Some style_info) ->
  forall ps, (s <= List.length ps)%nat ->
    exists ps',
      Content.insert_all (Z.of_nat s) original_styles n_new todo
        (Spec.plain_body ps sectPr)
      = Done (Spec.plain_body ps' sectPr)
      /\ map paragraph_text ps'
         = firstn s (map paragraph_text ps)
           ++ firstn (List.length ps - s)
                (rev (map snd todo) ++ skipn s (map paragraph_text ps)).
Proof.
  induction todo as [| [i content] todo IH]; intros Hst ps Hs.
  - exists ps. split; [reflexivity |]. simpl.
    rewrite (firstn_all2 (skipn s (map paragraph_text ps)))
      by (rewrite length_skipn, length_map; lia).
    now rewrite firstn_skipn.
  - destruct (Hst (i, content)) as [style_info Hget]; [now left |].
    simpl in Hget. simpl Content.insert_all.
    rewrite (insert_step_plain ps sectPr s original_styles n_new i content
               style_info Hs Hget).
    set (x := Content.stamp style_info content (mkParagraph Normal None [])).
    set (ps1 := removelast (firstn s ps ++ x :: skipn s ps)).
    assert (Hps1 : ps1 = firstn s ps
                         ++ firstn (List.length ps - s) (x :: skipn s ps)).
    { unfold ps1. rewrite removelast_app by discriminate.
      rewrite removelast_firstn_cons, length_skipn. reflexivity. }
    assert (Hlen1 : List.length ps1 = List.length ps).
    { rewrite Hps1, length_app, !length_firstn. simpl.
      rewrite length_skipn. lia. }
    destruct (IH (fun ic H => Hst ic (or_intror H)) ps1) as [ps' [Hrun Htexts]];
      [lia |].
    exists ps'. split; [exact Hrun |].
    rewrite Htexts, Hlen1, Hps1.
    rewrite map_app, <- !firstn_map. simpl map.
    fold x. rewrite (stamp_text style_info content : paragraph_text x = content).
    rewrite <- skipn_map.
    set (texts := map paragraph_text ps).
    assert (Ht : List.length texts = List.length ps) by apply length_map.
    rewrite firstn_app, firstn_firstn, length_firstn.
    replace (Nat.min s s) with s by lia.
    replace (s - Nat.min s (List.length texts))%nat with 0%nat by lia.
    simpl firstn at 2. rewrite app_nil_r.
    rewrite skipn_app, length_firstn.
    replace (s - Nat.min s (List.length texts))%nat with 0%nat by lia.
    rewrite (skipn_all2 (firstn s texts))
      by (rewrite length_firstn; lia).
    simpl skipn. simpl app at 2.
    rewrite firstn_app_firstn. simpl rev. rewrite <- app_assoc. reflexivity.
Qed.

Lemma delete_paragraphs_plain (m : nat) :
  forall (ps : list Paragraph) (sectPr : bool) (start stop : Z),
    0 <= start -> stop = start + Z.of_nat m -> stop <= Py.len ps ->
    Content.delete_paragraphs (Py.range_down (stop - 1) (start - 1))
      (Spec.plain_body ps sectPr)
    = Done (Spec.plain_body (firstn (Z.to_nat start) ps ++ skipn (Z.to_nat stop) ps)
              sectPr).
Proof.
  induction m as [| m IH]; intros ps sectPr start stop Hs He Hn.
  - rewrite range_down_nil by lia. simpl.
    replace stop with start by lia. now rewrite firstn_skipn.
  - rewrite range_down_cons by lia. simpl.
    unfold Py.len in Hn. unfold Content.paragraph_at.
    replace (stop - 1 <? 0) with false by (symmetry; apply Z.ltb_ge; lia).
    rewrite paragraph_position_plain by lia.
    rewrite remove_at_plain by lia.
    rewrite (IH (remove_at (Z.to_nat (stop - 1)) ps) sectPr start (stop - 1));
      [| lia | lia | unfold Py.len; rewrite length_remove_at by lia; lia].
    rewrite firstn_remove_at by lia.
    rewrite skipn_remove_at by lia.
    do 4 f_equal. lia.
Qed.

Lemma length_pad (l : list Content.StyleInfo) :
  List.length (Content.pad l) = S (List.length l).
Proof.
  destruct l; [reflexivity |].
  unfold Content.pad. rewrite length_app. simpl. lia.
Qed.

Lemma length_iter_pad (k : nat) (l : list Content.StyleInfo) :
  List.length (Nat.iter k Content.pad l) = (List.length l + k)%nat.
Proof.
  induction k as [| k IH]; simpl; [lia |]. rewrite length_pad, IH. lia.
Qed.

(** After the filling loop there is a saved style for every new line. *)
Lemma capture_styles_length (paras : list Paragraph) (start stop n_new : Z) :
  n_new <= Py.len (Content.capture_styles paras start stop n_new).
Proof.
  unfold Content.capture_styles, Py.len. rewrite length_iter_pad. lia.
Qed.

Lemma getitem_defined {A} (l : list A) (i : Z) :
  0 <= i < Py.len l -> exists x, Py.getitem l i = Some x.
Proof.
  intros H. unfold Py.getitem, Py.len in *.
  replace (i <? 0) with false by (symmetry; apply Z.ltb_ge; lia).
  destruct (nth_error l (Z.to_nat i)) as [x |] eqn:E; [now exists x |].
  apply nth_error_None in E. lia.
Qed.

Lemma enumerate_from_In {A} (l : list A) :
  forall i0 ic, In ic (Py.enumerate_from i0 l) -> i0 <= fst ic < i0 + Py.len l.
Proof.
  unfold Py.len.
  induction l as [| x l IH]; intros i0 ic H; simpl in H; [contradiction |].
  destruct H as [<- | H]; [simpl; lia |].
  apply IH in H. simpl List.length. lia.
Qed.

(** The replacement on a body of paragraphs: the paragraphs before the
    range stay; after them comes the new content followed by the paragraphs
    that came after the range, cut to as many paragraphs as came after the
    range. *)
Lemma replace_range_plain (ps : list Paragraph) (sectPr : bool)
    (start stop : Z) (new_content : list string) :
  0 <= start <= stop -> stop <= Py.len ps ->
  exists ps',
    Content.replace_range start stop new_content (Spec.plain_body ps sectPr)
    = Done (Spec.plain_body ps' sectPr)
    /\ map paragraph_text ps'
       = firstn (Z.to_nat start) (map paragraph_text ps)
         ++ firstn (List.length ps - Z.to_nat stop)
              (new_content ++ skipn (Z.to_nat stop) (map paragraph_text ps)).
Proof.
  intros Hs Hn. unfold Content.replace_range.
  rewrite paragraphs_plain.
  rewrite (delete_paragraphs_plain (Z.to_nat (stop - start)) ps sectPr start stop)
    by lia.
  set (styles := Content.capture_styles ps start stop (Py.len new_content)).
  set (ps0 := firstn (Z.to_nat start) ps ++ skipn (Z.to_nat stop) ps).
  unfold Py.len in Hn.
  assert (Hlen0 : List.length ps0
                  = (Z.to_nat start + (List.length ps - Z.to_nat stop))%nat).
  { unfold ps0. rewrite length_app, length_firstn, length_skipn. lia. }
  destruct (insert_all_plain sectPr (Z.to_nat start) styles (Py.len new_content)
              (Py.enumerate (rev new_content))) with (ps := ps0)
    as [ps' [Hrun Htexts]].
  - intros ic Hin. apply enumerate_from_In in Hin.
    apply getitem_defined.
    pose proof (capture_styles_length ps start stop (Py.len new_content)).
    fold styles in H. unfold Py.len in *. rewrite length_rev in Hin. lia.
  - lia.
  - exists ps'. rewrite Z2Nat.id in Hrun by lia. split; [exact Hrun |].
    rewrite Htexts. unfold Py.enumerate.
    rewrite enumerate_from_snd, rev_involutive, Hlen0.
    unfold ps0. rewrite map_app, <- firstn_map, <- skipn_map.
    set (texts := map paragraph_text ps).
    assert (Ht : List.length texts = List.length ps) by apply length_map.
    rewrite firstn_app, firstn_firstn, length_firstn.
    replace (Nat.min (Z.to_nat start) (Z.to_nat start)) with (Z.to_nat start) by lia.
    replace (Z.to_nat start - Nat.min (Z.to_nat start) (List.length texts))%nat
      with 0%nat by lia.
    rewrite firstn_O, app_nil_r.
    rewrite skipn_app, length_firstn.
    replace (Z.to_nat start - Nat.min (Z.to_nat start) (List.length texts))%nat
      with 0%nat by lia.
    rewrite (skipn_all2 (firstn (Z.to_nat start) texts))
      by (rewrite length_firstn; lia).
    rewrite skipn_O. simpl app at 2.
    do 2 f_equal. lia.
Qed.

(** So the replacement never makes the body longer, and with new content
    it never leaves the paragraphs before the range, the new content and
    the paragraphs after the range: as many paragraphs as were inserted are
    missing at the end. *)
Lemma replace_range_plain_loses_paragraphs (ps : list Paragraph) (sectPr : bool)
    (start stop : Z) (new_content : list string) :
  0 <= start <= stop -> stop <= Py.len ps -> new_content <> [] ->
  exists ps',
    Content.replace_range start stop new_content (Spec.plain_body ps sectPr)
    = Done (Spec.plain_body ps' sectPr)
    /\ Py.len ps' = Py.len ps - (stop - start)
    /\ map paragraph_text ps'
       <> firstn (Z.to_nat start) (map paragraph_text ps)
          ++ new_content ++ skipn (Z.to_nat stop) (map paragraph_text ps).
Proof.
  intros Hs Hn Hnew.
  destruct (replace_range_plain ps sectPr start stop new_content Hs Hn)
    as [ps' [Hrun Htexts]].
  exists ps'. split; [exact Hrun |].
  assert (Hlen : List.length (map paragraph_text ps')
                 = (Z.to_nat start + (List.length ps - Z.to_nat stop))%nat).
  { rewrite Htexts, length_app, !length_firstn, length_app, length_skipn,
      !length_map.
    unfold Py.len in Hn. lia. }
  split.
  - rewrite length_map in Hlen. unfold Py.len in *. lia.
  - intros E. rewrite E in Hlen.
    rewrite !length_app, length_firstn, length_skipn, !length_map in Hlen.
    destruct new_content; [contradiction |]. simpl in Hlen.
    unfold Py.len in Hn. lia.
Qed.

(** ** [split_table] on tables with properties or grid columns *)

Lemma append_copies_raises (children : list XmlElement) (new_tbl : Table) :
  children <> [] -> TableTools.append_copies children new_tbl = None.
Proof.
  destruct children as [| child rest]; [contradiction | reflexivity].
Qed.

(** Whatever the document and the indices, [split_table] changes nothing
    unless the table has neither a table property nor a grid column to
    copy: on every other table, and so on every table [add_table] makes, it
    does not succeed. *)
Lemma split_table_succeeds_only_without_properties (table_index row_index : Z)
    (st : State) :
  is_success (fst (TableTools.split_table table_index row_index st)) = true ->
  exists doc tbl,
    st = Some doc
    /\ Py.getitem (tables doc) table_index = Some tbl
    /\ hd_error (xpath_tblPr tbl) = Some []
    /\ hd_error (xpath_tblGrid tbl) = Some [].
Proof.
  unfold TableTools.split_table.
  destruct st as [doc |]; [| discriminate].
  destruct (tables doc) as [| t0 ts] eqn:Ht; [discriminate |].
  destruct ((table_index <? 0) || (table_index >=? Py.len (t0 :: ts)));
    [discriminate |].
  destruct (Py.getitem (t0 :: ts) table_index) as [tbl |] eqn:Hget;
    [| discriminate].
  destruct (TableTools.table_position (Z.to_nat table_index) doc) as [k |];
    [| discriminate].
  destruct ((row_index <? 0) || (row_index >=? Py.len (rows tbl) - 1));
    [discriminate |].
  destruct (xpath_tblPr tbl) as [| pr prs] eqn:Hpr; [discriminate |].
  destruct pr as [| child pr]; [| discriminate].
  simpl TableTools.append_copies.
  destruct (xpath_tblGrid tbl) as [| grid grids] eqn:Hgrid; [discriminate |].
  destruct grid as [| col grid]; [| discriminate].
  intros _. exists doc, tbl. rewrite Ht, Hpr, Hgrid.
  repeat split; try reflexivity. exact Hget.
Qed.

Lemma split_table_failure_changes_nothing (table_index row_index : Z) (st : State) :
  is_success (fst (TableTools.split_table table_index row_index st)) = false ->
  snd (TableTools.split_table table_index row_index st) = st.
Proof.
  unfold TableTools.split_table.
  destruct st as [doc |]; [| reflexivity].
  destruct (tables doc) as [| t0 ts]; [reflexivity |].
  destruct ((table_index <? 0) || (table_index >=? Py.len (t0 :: ts)));
    [reflexivity |].
  destruct (Py.getitem (t0 :: ts) table_index) as [tbl |]; [| reflexivity].
  destruct (TableTools.table_position (Z.to_nat table_index) doc) as [k |];
    [| reflexivity].
  destruct ((row_index <? 0) || (row_index >=? Py.len (rows tbl) - 1));
    [reflexivity |].
  destruct (xpath_tblPr tbl) as [| pr prs]; [reflexivity |].
  destruct (TableTools.append_copies pr []) as [new_tbl1 |]; [| reflexivity].
  destruct (xpath_tblGrid tbl) as [| grid grids]; [reflexivity |].
  destruct (TableTools.append_copies grid new_tbl1) as [new_tbl2 |];
    [discriminate | reflexivity].
Qed.

(** * Further properties of the tools *)

(** ** [delete_paragraph] *)

Lemma paragraph_at_position (doc : Document) (i : Z) :
  0 <= i < Py.len (paragraphs doc) ->
  exists j, Content.paragraph_at i doc = Some j
            /\ paragraph_position (Z.to_nat i) doc = Some j.
Proof.
  intros H. unfold Content.paragraph_at, Py.len in *.
  replace (i <? 0) with false by (symmetry; apply Z.ltb_ge; lia).
  destruct (paragraph_position_defined doc (Z.to_nat i)) as [j Hj]; [lia |].
  exists j. now rewrite Hj.
Qed.

(** [delete_paragraph(i)] with [0 <= i < len(paragraphs)] removes the
    paragraph at [i] and nothing else: the other paragraphs keep their
    order, the count goes down by one, the tables stay.  With any other
    index it answers that the index is out of range and leaves the document
    as it was; a negative index does not count from the end. *)
Theorem delete_paragraph_effect (doc : Document) (i : Z) :
  let n := Py.len (paragraphs doc) in
  let r := ContentRest.delete_paragraph i (Some doc) in
  (0 <= i < n ->
   fst r = Paragraph_deleted i
   /\ exists doc', snd r = Some doc'
        /\ paragraphs doc' = remove_at (Z.to_nat i) (paragraphs doc)
        /\ Py.len (paragraphs doc') = n - 1
        /\ tables doc' = tables doc)
  /\ (i < 0 \/ n <= i ->
      fst r = Shared (Paragraph_index_out_of_range i n) /\ snd r = Some doc).
Proof.
  cbv zeta. unfold ContentRest.delete_paragraph. split.
  - intros H.
    replace ((i <? 0) || (i >=? Py.len (paragraphs doc))) with false.
    2:{ symmetry. apply orb_false_iff. split;
        [apply Z.ltb_ge | apply geb_false_iff]; lia. }
    destruct (paragraph_at_position doc i H) as [j [Hat Hpos]].
    rewrite Hat. split; [reflexivity |].
    destruct (remove_paragraph_position doc _ _ Hpos) as [Hp Ht].
    exists (remove_at j doc). repeat split; try assumption.
    unfold Py.len in *. rewrite Hp, length_remove_at by lia. lia.
  - intros H.
    replace ((i <? 0) || (i >=? Py.len (paragraphs doc))) with true;
      [split; reflexivity |].
    symmetry. apply orb_true_iff.
    destruct H as [H | H]; [left; apply Z.ltb_lt; lia |].
    right. rewrite Z.geb_leb. apply Z.leb_le. lia.
Qed.

Lemma delete_paragraph_effect_witness :
  0 <= 1 < Py.len (paragraphs Scenario.titled_document)
  /\ Scenario.texts (snd (ContentRest.delete_paragraph 1 (Some Scenario.titled_document)))
     = ["Title A"; "Title B"; "World"]
  /\ fst (ContentRest.delete_paragraph (-1) (Some Scenario.titled_document))
     = Shared (Paragraph_index_out_of_range (-1) 4).
Proof.
  destruct (delete_paragraph_effect Scenario.titled_document 1) as [H1 _].
  destruct (delete_paragraph_effect Scenario.titled_document (-1)) as [_ H2].
  assert (Hn : Py.len (paragraphs Scenario.titled_document) = 4) by reflexivity.
  split; [lia |].
  split.
  - destruct H1 as [_ [doc' [Hs [Hp _]]]]; [lia |].
    rewrite Hs. simpl Scenario.texts. rewrite Hp. reflexivity.
  - apply H2. left. lia.
Defined.

(** ** [delete_text]: the characters that stay *)

Lemma substring_chars (s : string) :
  forall n m, list_ascii_of_string (String.substring n m s)
              = firstn m (skipn n (list_ascii_of_string s)).
Proof.
  induction s as [| c s IH]; intros n m.
  - destruct n, m; reflexivity.
  - destruct n as [| n].
    + destruct m as [| m]; [reflexivity |]. simpl. now rewrite IH.
    + simpl. apply IH.
Qed.

Lemma chars_append (a b : string) :
  list_ascii_of_string (a ++ b) = list_ascii_of_string a ++ list_ascii_of_string b.
Proof.
  induction a as [| c a IH]; simpl; [reflexivity | now rewrite IH].
Qed.

Lemma length_chars (s : string) :
  List.length (list_ascii_of_string s) = String.length s.
Proof.
  induction s as [| c s IH]; simpl; [reflexivity | now rewrite IH].
Qed.

(** Writing the paragraph behind [doc.paragraphs[k]] writes the [k]-th
    paragraph and nothing else. *)
Lemma update_paragraph_position (f : Paragraph -> Paragraph) (d : Document) :
  forall k j, paragraph_position k d = Some j ->
    paragraphs (update_at j (fun b => match b with
                                      | BParagraph p => BParagraph (f p)
                                      | _ => b
                                      end) d)
    = update_at k f (paragraphs d)
    /\ tables (update_at j (fun b => match b with
                                     | BParagraph p => BParagraph (f p)
                                     | _ => b
                                     end) d)
       = tables d.
Proof.
  unfold paragraph_position.
  induction d as [| b d IH]; intros k j H; simpl in H; [discriminate |].
  destruct b as [p | t |].
  - destruct k as [| k].
    + injection H as <-. split; reflexivity.
    + rewrite paragraph_position_from_shift in H.
      destruct (paragraph_position_from 0 k d) as [j' |] eqn:Hj; [| discriminate].
      injection H as <-. destruct (IH k j' Hj) as [IH1 IH2].
      simpl. rewrite IH1, IH2. split; reflexivity.
  - rewrite paragraph_position_from_shift in H.
    destruct (paragraph_position_from 0 k d) as [j' |] eqn:Hj; [| discriminate].
    injection H as <-. destruct (IH k j' Hj) as [IH1 IH2].
    simpl. rewrite IH1, IH2. split; reflexivity.
  - rewrite paragraph_position_from_shift in H.
    destruct (paragraph_position_from 0 k d) as [j' |] eqn:Hj; [| discriminate].
    injection H as <-. destruct (IH k j' Hj) as [IH1 IH2].
    simpl. rewrite IH1, IH2. split; reflexivity.
Qed.

(** [delete_text(p, s, e)] with a paragraph [p] and [0 <= s < e <=
    len(text)] succeeds: the text of the paragraph becomes the characters
    before [s] followed by the characters from [e] on, [e - s] characters
    shorter; the paragraph keeps its style and alignment but is left with a
    single run without formatting; the other paragraphs and the tables
    stay. *)
Theorem delete_text_effect (doc : Document) (p s e : Z) (para : Paragraph) :
  0 <= p ->
  nth_error (paragraphs doc) (Z.to_nat p) = Some para ->
  0 <= s < e -> e <= Py.strlen (paragraph_text para) ->
  exists doc' new_text,
    Content.delete_text p s e (Some doc) = (Deleted_text s e p, Some doc')
    /\ paragraphs doc'
       = update_at (Z.to_nat p)
           (fun _ => mkParagraph (par_style para) (par_alignment para)
                       [plain_run new_text])
           (paragraphs doc)
    /\ list_ascii_of_string new_text
       = firstn (Z.to_nat s) (list_ascii_of_string (paragraph_text para))
         ++ skipn (Z.to_nat e) (list_ascii_of_string (paragraph_text para))
    /\ Py.strlen new_text = Py.strlen (paragraph_text para) - (e - s)
    /\ tables doc' = tables doc.
Proof.
  intros Hp Hnth Hs He.
  assert (Hlt : (Z.to_nat p < List.length (paragraphs doc))%nat).
  { apply nth_error_Some. rewrite Hnth. discriminate. }
  assert (Hrange : 0 <= p < Py.len (paragraphs doc)) by (unfold Py.len; lia).
  destruct (paragraph_at_position doc p Hrange) as [j [Hat Hpos]].
  unfold Content.delete_text.
  replace ((p <? 0) || (p >=? Py.len (paragraphs doc))) with false.
  2:{ symmetry. apply orb_false_iff. split;
      [apply Z.ltb_ge | apply geb_false_iff]; lia. }
  unfold Py.getitem.
  replace (p <? 0) with false by (symmetry; apply Z.ltb_ge; lia).
  rewrite Hnth, Hat.
  set (text := paragraph_text para) in *.
  replace ((s <? 0) || (s >=? Py.strlen text)) with false.
  2:{ symmetry. apply orb_false_iff. split;
      [apply Z.ltb_ge | apply geb_false_iff]; lia. }
  replace ((e <=? s) || (e >? Py.strlen text)) with false.
  2:{ symmetry. apply orb_false_iff. split;
      [apply Z.leb_gt | apply gtb_false_iff]; lia. }
  set (new_text := (Py.slice_to text s ++ Py.slice_from text e)%string).
  exists (update_at j (fun b => match b with
                                | BParagraph q =>
                                    BParagraph (set_paragraph_text new_text q)
                                | _ => b
                                end) doc), new_text.
  destruct (update_paragraph_position (set_paragraph_text new_text) doc _ _ Hpos)
    as [Hps Hts].
  assert (Hchars : list_ascii_of_string new_text
            = firstn (Z.to_nat s) (list_ascii_of_string text)
              ++ skipn (Z.to_nat e) (list_ascii_of_string text)).
  { unfold new_text, Py.slice_to, Py.slice_from, Py.slice, Py.clamp.
    rewrite chars_append, !substring_chars.
    unfold Py.strlen in *.
    replace (0 <? 0) with false by reflexivity.
    replace (s <? 0) with false by (symmetry; apply Z.ltb_ge; lia).
    replace (e <? 0) with false by (symmetry; apply Z.ltb_ge; lia).
    replace (Z.of_nat (String.length text) <? 0) with false
      by (symmetry; apply Z.ltb_ge; lia).
    replace (Z.min 0 (Z.of_nat (String.length text))) with 0 by lia.
    replace (Z.min s (Z.of_nat (String.length text))) with s by lia.
    replace (Z.min e (Z.of_nat (String.length text))) with e by lia.
    rewrite Z.min_id, Z.sub_0_r. simpl skipn at 1. f_equal.
    apply firstn_all2. rewrite length_skipn, length_chars. lia. }
  split; [reflexivity |]. split.
  - rewrite Hps. clear - Hnth.
    revert Hnth. generalize (Z.to_nat p). generalize (paragraphs doc).
    induction l as [| q l IH]; intros k H; destruct k; simpl in *;
      try discriminate.
    + now injection H as ->.
    + now rewrite IH.
  - split; [exact Hchars |]. split; [| exact Hts].
    unfold Py.strlen in *. rewrite <- (length_chars new_text), Hchars.
    rewrite length_app, length_firstn, length_skipn, length_chars. lia.
Qed.

Lemma delete_text_effect_witness :
  exists doc',
    Content.delete_text 3 1 4 (Some Scenario.titled_document)
    = (Deleted_text 1 4 3, Some doc')
    /\ Scenario.texts (Some doc') = ["Title A"; "Hello"; "Title B"; "Wd"].
Proof.
  destruct (delete_text_effect Scenario.titled_document 3 1 4
              (mkParagraph Normal None [plain_run "World"]))
    as [doc' [new_text [Hrun _]]];
    [lia | reflexivity | lia | change (4 <= 5); lia |].
  exists doc'. split; [exact Hrun |].
  vm_compute in Hrun. injection Hrun as <-. reflexivity.
Defined.

(** ** [search_text]: which paragraphs are reported *)

Lemma enumerate_from_In_iff {A} (l : list A) :
  forall i0 i x, In (i, x) (Py.enumerate_from i0 l)
                 <-> i0 <= i /\ nth_error l (Z.to_nat (i - i0)) = Some x.
Proof.
  induction l as [| y l IH]; intros i0 i x; simpl.
  - split; [contradiction |]. intros [_ H]. destruct (Z.to_nat (i - i0)); discriminate.
  - rewrite IH. split.
    + intros [H | [H1 H2]].
      * injection H as <- <-. split; [lia |]. now rewrite Z.sub_diag.
      * split; [lia |].
        replace (Z.to_nat (i - i0)) with (S (Z.to_nat (i - (i0 + 1)))) by lia.
        exact H2.
    + intros [H1 H2].
      destruct (Z.eq_dec i i0) as [-> | Hne].
      * rewrite Z.sub_diag in H2. simpl in H2. injection H2 as <-. now left.
      * right. split; [lia |].
        replace (Z.to_nat (i - i0)) with (S (Z.to_nat (i - (i0 + 1)))) in H2 by lia.
        exact H2.
Qed.

Lemma search_paragraphs_filter (keyword : string) (paras : list Paragraph) :
  forall i0,
    Content.search_paragraphs keyword i0 paras
    = map (fun ip => mkSearchHit (InParagraph (fst ip)) (paragraph_text (snd ip)))
        (filter (fun ip => Py.contains keyword (paragraph_text (snd ip)))
                (Py.enumerate_from i0 paras)).
Proof.
  induction paras as [| p paras IH]; intros i0; simpl; [reflexivity |].
  destruct (Py.contains keyword (paragraph_text p)); simpl; now rewrite IH.
Qed.

Lemma search_cells_locations (keyword : string) (t_idx r_idx : Z)
    (cells : list (Z * nat)) (r : Tr) :
  Forall (fun h => forall i, sh_location h <> InParagraph i)
         (Content.search_cells keyword t_idx r_idx cells r).
Proof.
  induction cells as [| [c_idx j] cells IH]; simpl; [constructor |].
  destruct (nth_error r j) as [cell |]; [| exact IH].
  destruct (Py.contains keyword (cell_text cell)); [| exact IH].
  constructor; [intros i; discriminate | exact IH].
Qed.

Lemma search_tables_locations (keyword : string) (tbls : list Table) :
  forall t_idx,
    Forall (fun h => forall i, sh_location h <> InParagraph i)
           (Content.search_tables keyword t_idx tbls).
Proof.
  induction tbls as [| t tbls IH]; intros t_idx; simpl; [constructor |].
  apply Forall_app. split; [| apply IH].
  generalize 0 at 1. generalize (rows t).
  induction l as [| row l IHl]; intros r_idx; simpl; [constructor |].
  apply Forall_app. split; [apply search_cells_locations | apply IHl].
Qed.

Lemma contains_empty (s : string) : Py.contains "" s = true.
Proof. destruct s; reflexivity. Qed.

(** [search_text] reports the paragraph at index [i] with the text [text]
    exactly when the document has a paragraph at [i], [text] is its whole
    text and the keyword occurs in it (with upper and lower case as they
    are).  In particular the empty keyword occurs in every text, so with it
    every paragraph is reported. *)
Theorem search_text_paragraph_hits (doc : Document) (keyword : string) :
  let hits := Observe.found_hits (fst (Content.search_text keyword (Some doc))) in
  (forall i text,
     In (mkSearchHit (InParagraph i) text) hits
     <-> exists p, 0 <= i /\ nth_error (paragraphs doc) (Z.to_nat i) = Some p
                   /\ paragraph_text p = text
                   /\ Py.contains keyword text = true)
  /\ (keyword = "" ->
      forall i p, nth_error (paragraphs doc) i = Some p ->
        In (mkSearchHit (InParagraph (Z.of_nat i)) (paragraph_text p)) hits).
Proof.
  cbv zeta.
  assert (Hhits : Observe.found_hits (fst (Content.search_text keyword (Some doc)))
                  = Content.search_paragraphs keyword 0 (paragraphs doc)
                    ++ Content.search_tables keyword 0 (tables doc)).
  { unfold Content.search_text.
    destruct (Content.search_paragraphs keyword 0 (paragraphs doc)
              ++ Content.search_tables keyword 0 (tables doc)); reflexivity. }
  rewrite Hhits. clear Hhits.
  assert (Hiff : forall i text,
     In (mkSearchHit (InParagraph i) text)
        (Content.search_paragraphs keyword 0 (paragraphs doc)
         ++ Content.search_tables keyword 0 (tables doc))
     <-> exists p, 0 <= i /\ nth_error (paragraphs doc) (Z.to_nat i) = Some p
                   /\ paragraph_text p = text
                   /\ Py.contains keyword text = true).
  { intros i text. rewrite in_app_iff, search_paragraphs_filter, in_map_iff. split.
    - intros [[[i' p] [Heq Hin]] | Hin].
      + simpl in Heq. injection Heq as <- <-.
        apply filter_In in Hin. destruct Hin as [Hin Hc].
        apply enumerate_from_In_iff in Hin. rewrite Z.sub_0_r in Hin.
        exists p. simpl in Hc. tauto.
      + pose proof (search_tables_locations keyword (tables doc) 0) as Hloc.
        rewrite Forall_forall in Hloc. specialize (Hloc _ Hin i).
        now contradiction Hloc.
    - intros [p (Hi & Hnth & <- & Hc)]. left. exists (i, p).
      split; [reflexivity |]. apply filter_In. split; [| exact Hc].
      apply enumerate_from_In_iff. now rewrite Z.sub_0_r. }
  split; [exact Hiff |].
  intros -> i p Hnth. apply Hiff. exists p.
  rewrite Nat2Z.id. repeat split; try assumption; [lia | apply contains_empty].
Qed.

(** ** [search_and_replace]: what the report says about a hit *)

Lemma count_go_cons (sub : string) (k : nat) (c : ascii) (s : string) :
  Py.count_go sub k (String c s)
  = match k with
    | S k' => Py.count_go sub k' s
    | O => if String.prefix sub (String c s)
           then 1 + Py.count_go sub (String.length sub - 1)%nat s
           else Py.count_go sub 0 s
    end.
Proof. reflexivity. Qed.

Lemma replace_go_cons (old new : string) (k : nat) (c : ascii) (s : string) :
  Py.replace_go old new k (String c s)
  = match k with
    | S k' => Py.replace_go old new k' s
    | O => if String.prefix old (String c s)
           then (new ++ Py.replace_go old new (String.length old - 1)%nat s)%string
           else String c (Py.replace_go old new 0 s)
    end.
Proof. reflexivity. Qed.

Lemma contains_cons (sub : string) (c : ascii) (s : string) :
  Py.contains sub (String c s)
  = String.prefix sub (String c s) || Py.contains sub s.
Proof. reflexivity. Qed.

Lemma count_go_nonneg (sub s : string) : forall k, 0 <= Py.count_go sub k s.
Proof.
  induction s as [| c s IH]; intros k; [simpl; lia |].
  rewrite count_go_cons.
  destruct k; [| apply IH].
  destruct (String.prefix sub (String c s)); [| apply IH].
  specialize (IH (String.length sub - 1)%nat). lia.
Qed.

Lemma contains_count_go (sub s : string) :
  sub <> "" -> Py.contains sub s = true -> 1 <= Py.count_go sub 0 s.
Proof.
  intros Hsub. induction s as [| c s IH].
  - destruct sub; [contradiction | discriminate].
  - rewrite contains_cons, count_go_cons.
    destruct (String.prefix sub (String c s)); simpl orb.
    + intros _. pose proof (count_go_nonneg sub s (String.length sub - 1)%nat). lia.
    + exact IH.
Qed.

(** A text that contains the keyword has at least one occurrence of it. *)
Lemma contains_count (sub s : string) :
  Py.contains sub s = true -> 1 <= Py.count s sub.
Proof.
  intros H. unfold Py.count. destruct sub as [| a sub].
  - unfold Py.strlen. lia.
  - apply contains_count_go; [discriminate | exact H].
Qed.

Lemma prefix_length (a s : string) :
  String.prefix a s = true -> (String.length a <= String.length s)%nat.
Proof.
  revert s. induction a as [| x a IH]; intros s H; simpl; [lia |].
  destruct s as [| y s]; [discriminate |]. simpl in H.
  destruct (ascii_dec x y); [| discriminate].
  apply IH in H. simpl. lia.
Qed.

Lemma string_length_append (a b : string) :
  String.length (a ++ b) = (String.length a + String.length b)%nat.
Proof.
  induction a as [| x a IH]; simpl; [reflexivity | now rewrite IH].
Qed.

(** Every occurrence counted takes [old] out and puts [new] in. *)
Lemma replace_go_length (old new s : string) :
  old <> "" ->
  forall k, (k <= String.length s)%nat ->
    Z.of_nat (String.length (Py.replace_go old new k s))
    = Z.of_nat (String.length s) - Z.of_nat k
      + Py.count_go old k s * (Z.of_nat (String.length new) - Z.of_nat (String.length old)).
Proof.
  intros Hold. induction s as [| c s IH]; intros k Hk.
  - simpl in *. replace k with 0%nat by lia. simpl. lia.
  - rewrite replace_go_cons, count_go_cons.
    change (String.length (String c s)) with (S (String.length s)) in *.
    destruct k as [| k].
    + destruct (String.prefix old (String c s)) eqn:Hp.
      * apply prefix_length in Hp.
        change (String.length (String c s)) with (S (String.length s)) in Hp.
        assert (String.length old <> 0%nat)
          by (destruct old; [contradiction | discriminate]).
        rewrite string_length_append, Nat2Z.inj_add, IH by lia. lia.
      * change (String.length (String c (Py.replace_go old new 0 s)))
          with (S (String.length (Py.replace_go old new 0 s))).
        rewrite Nat2Z.inj_succ, IH by lia. lia.
    + rewrite IH by lia. lia.
Qed.

Lemma replace_length (s old new : string) :
  old <> "" ->
  Py.strlen (Py.replace s old new)
  = Py.strlen s + Py.count s old * (Py.strlen new - Py.strlen old).
Proof.
  intros Hold. unfold Py.replace, Py.count, Py.strlen.
  destruct old as [| a old]; [contradiction |].
  rewrite replace_go_length by (discriminate || lia). lia.
Qed.

Lemma replace_paragraphs_consistent (keyword replace_with : string)
    (preview_only : bool) (d : Document) :
  forall i, Forall (Observe.hit_consistent keyword replace_with)
              (fst (Content.replace_paragraphs keyword replace_with preview_only i d)).
Proof.
  induction d as [| b d IH]; intros i; simpl; [constructor |].
  destruct b as [p | t |].
  - destruct (Py.contains keyword (paragraph_text p)) eqn:Hc.
    + specialize (IH (i + 1)).
      destruct (Content.replace_paragraphs keyword replace_with preview_only (i + 1) d).
      simpl in *. constructor; [| exact IH].
      repeat split; try assumption. now apply contains_count.
    + specialize (IH (i + 1)).
      destruct (Content.replace_paragraphs keyword replace_with preview_only (i + 1) d).
      exact IH.
  - specialize (IH i).
    destruct (Content.replace_paragraphs keyword replace_with preview_only i d).
    exact IH.
  - specialize (IH i).
    destruct (Content.replace_paragraphs keyword replace_with preview_only i d).
    exact IH.
Qed.

Lemma replace_cells_consistent (keyword replace_with : string)
    (preview_only : bool) (t_idx r_idx : Z) (cells : list (Z * nat)) :
  forall r, Forall (Observe.hit_consistent keyword replace_with)
              (fst (Content.replace_cells keyword replace_with preview_only
                      t_idx r_idx cells r)).
Proof.
  induction cells as [| [c_idx j] cells IH]; intros r; simpl; [constructor |].
  destruct (nth_error r j) as [cell |]; [| apply IH].
  destruct (Py.contains keyword (cell_text cell)) eqn:Hc; [| apply IH].
  match goal with
  | |- context [Content.replace_cells _ _ _ _ _ cells ?r'] => specialize (IH r')
  end.
  destruct (Content.replace_cells keyword replace_with preview_only t_idx r_idx cells _).
  simpl in *. constructor; [| exact IH].
  repeat split; try assumption. now apply contains_count.
Qed.

Lemma replace_rows_consistent (keyword replace_with : string)
    (preview_only : bool) (t_idx : Z) (t : Table) :
  forall r_idx, Forall (Observe.hit_consistent keyword replace_with)
                  (fst (Content.replace_rows keyword replace_with preview_only
                          t_idx r_idx t)).
Proof.
  induction t as [| c t IH]; intros r_idx; simpl; [constructor |].
  destruct c as [pr | g | row | e];
    try (specialize (IH r_idx);
         destruct (Content.replace_rows keyword replace_with preview_only t_idx r_idx t);
         exact IH).
  pose proof (replace_cells_consistent keyword replace_with preview_only t_idx r_idx
                (Py.enumerate (row_cells row)) row) as Hrow.
  destruct (Content.replace_cells keyword replace_with preview_only t_idx r_idx
              (Py.enumerate (row_cells row)) row).
  specialize (IH (r_idx + 1)).
  destruct (Content.replace_rows keyword replace_with preview_only t_idx (r_idx + 1) t).
  simpl in *. apply Forall_app. now split.
Qed.

Lemma replace_tables_consistent (keyword replace_with : string)
    (preview_only : bool) (d : Document) :
  forall t_idx, Forall (Observe.hit_consistent keyword replace_with)
                  (fst (Content.replace_tables keyword replace_with preview_only
                          t_idx d)).
Proof.
  induction d as [| b d IH]; intros t_idx; simpl; [constructor |].
  destruct b as [p | t |];
    try (specialize (IH t_idx);
         destruct (Content.replace_tables keyword replace_with preview_only t_idx d);
         exact IH).
  pose proof (replace_rows_consistent keyword replace_with preview_only t_idx t 0) as Ht.
  destruct (Content.replace_rows keyword replace_with preview_only t_idx 0 t).
  specialize (IH (t_idx + 1)).
  destruct (Content.replace_tables keyword replace_with preview_only (t_idx + 1) d).
  simpl in *. apply Forall_app. now split.
Qed.

Lemma sum_counts_ge (keyword replace_with : string) (hits : list ReplaceHit) :
  Forall (Observe.hit_consistent keyword replace_with) hits ->
  Py.len hits <= Py.sum (map rh_count hits).
Proof.
  unfold Py.len. induction 1 as [| h hits Hh _ IH]; simpl; [lia |].
  destruct Hh as (_ & _ & _ & Hc). unfold Py.sum in *. simpl. lia.
Qed.

(** A report of [search_and_replace], preview or not, lists at least one
    location; every location has at least one occurrence, so the total of
    occurrences is at least the number of locations; and for every location
    the replaced text is the original with the keyword replaced, the count
    is the number of occurrences in the original and, for a keyword that is
    not empty, the replaced text is longer than the original by the count
    times the difference of the lengths of replacement and keyword. *)
Theorem search_and_replace_report_consistent (keyword replace_with : string)
    (preview_only : bool) (st : State) (flag : bool) (kw rw : string)
    (locations occurrences : Z) (hits : list ReplaceHit) :
  fst (Content.search_and_replace keyword replace_with preview_only st)
  = Replace_report flag kw rw locations occurrences hits ->
  flag = preview_only /\ kw = keyword /\ rw = replace_with
  /\ locations = Py.len hits /\ 1 <= locations <= occurrences
  /\ occurrences = Py.sum (map rh_count hits)
  /\ Forall (fun h =>
       Observe.hit_consistent keyword replace_with h
       /\ (keyword <> "" ->
           Py.strlen (rh_replaced h)
           = Py.strlen (rh_original h)
             + rh_count h * (Py.strlen replace_with - Py.strlen keyword))) hits.
Proof.
  unfold Content.search_and_replace.
  destruct st as [doc |]; [| discriminate].
  pose proof (replace_paragraphs_consistent keyword replace_with preview_only doc 0)
    as Hp.
  destruct (Content.replace_paragraphs keyword replace_with preview_only 0 doc)
    as [hp d1].
  pose proof (replace_tables_consistent keyword replace_with preview_only d1 0) as Ht.
  destruct (Content.replace_tables keyword replace_with preview_only 0 d1)
    as [ht d2].
  simpl in Hp, Ht.
  assert (Hall : Forall (Observe.hit_consistent keyword replace_with) (hp ++ ht))
    by (apply Forall_app; now split).
  destruct (hp ++ ht) as [| h0 rest] eqn:E; [discriminate |].
  simpl. intros H. injection H as <- <- <- <- <- <-.
  pose proof (sum_counts_ge keyword replace_with (h0 :: rest) Hall) as Hsum.
  repeat split; try reflexivity.
  - unfold Py.len. simpl. lia.
  - exact Hsum.
  - eapply Forall_impl; [| exact Hall].
    intros h Hh. split; [exact Hh |].
    intros Hk. destruct Hh as (_ & -> & -> & _).
    now apply replace_length.
Qed.

Lemma search_and_replace_report_consistent_witness :
  exists hits,
    fst (Content.search_and_replace "l" "LL" false (Some Scenario.titled_document))
    = Replace_report false "l" "LL" 4 5 hits
    /\ 4 = Py.len hits /\ 1 <= 4 <= 5.
Proof.
  eexists. split; [vm_compute; reflexivity |].
  destruct (search_and_replace_report_consistent "l" "LL" false
              (Some Scenario.titled_document) false "l" "LL" 4 5 _ eq_refl)
    as (_ & _ & _ & Hlen & Hle & _).
  split; [exact Hlen | exact Hle].
Defined.

(** ** [search_and_replace] and [find_and_replace] leave the same document *)











(** ** Paragraphs added at the end of the body *)

Lemma paragraphs_app (a b : Document) :
  paragraphs (a ++ b) = paragraphs a ++ paragraphs b.
Proof.
  induction a as [| x a IH]; simpl; [reflexivity |].
  destruct x; simpl; now rewrite IH.
Qed.

Lemma tables_app (a b : Document) : tables (a ++ b) = tables a ++ tables b.
Proof.
  induction a as [| x a IH]; simpl; [reflexivity |].
  destruct x; simpl; now rewrite IH.
Qed.




Lemma plain_run_text (text : string) :
  paragraph_text (mkParagraph Normal None [plain_run text]) = text.
Proof. unfold paragraph_text. simpl. reflexivity. Qed.


(** ** [add_heading] *)



(** ** Heading levels and the end of a section *)

Lemma heading_level_cases (a : Z) :
  1 <= a <= 9 ->
  a = 1 \/ a = 2 \/ a = 3 \/ a = 4 \/ a = 5 \/ a = 6 \/ a = 7 \/ a = 8 \/ a = 9.
Proof. lia. Qed.

Lemma style_eqb_names_differ (a b : Style) :
  String.eqb (style_name a) (style_name b) = false -> style_eqb a b = false.
Proof. unfold style_eqb. intros ->. apply andb_false_r. Qed.

(** For the headings [add_heading] makes with the levels 1 to 9, the test
    [replace_section] uses for the end of a section, which compares style
    names as strings, compares the levels: a heading of level [a] ends the
    section of a heading of level [b] exactly when [a <= b].  A title
    (level 0) ends no section. *)
Theorem heading_levels_end_sections (a b : Z) (id_a id_b : string)
    (alignment : option Alignment) (runs : list Run) :
  1 <= b <= 9 ->
  (1 <= a <= 9 ->
   Content.ends_section (mkStyle id_b (ContentRest.heading_style_name b))
     (mkParagraph (mkStyle id_a (ContentRest.heading_style_name a)) alignment runs)
   = (a <=? b))
  /\ Content.ends_section (mkStyle id_b (ContentRest.heading_style_name b))
       (mkParagraph (mkStyle id_a (ContentRest.heading_style_name 0)) alignment runs)
     = false.
Proof.
  intros Hb. split; [| reflexivity].
  intros Ha. unfold Content.ends_section. simpl par_style. simpl style_name.
  destruct (String.leb (ContentRest.heading_style_name a)
              (ContentRest.heading_style_name b)) eqn:Hleb.
  - apply heading_level_cases in Ha. apply heading_level_cases in Hb.
    repeat (destruct Ha as [-> | Ha]); try subst a;
      repeat (destruct Hb as [-> | Hb]); try subst b;
      first [reflexivity | discriminate Hleb].
  - rewrite style_eqb_names_differ.
    + apply heading_level_cases in Ha. apply heading_level_cases in Hb.
      repeat (destruct Ha as [-> | Ha]); try subst a;
        repeat (destruct Hb as [-> | Hb]); try subst b;
        first [reflexivity | discriminate Hleb].
    + simpl style_name.
      apply heading_level_cases in Ha. apply heading_level_cases in Hb.
      repeat (destruct Ha as [-> | Ha]); try subst a;
        repeat (destruct Hb as [-> | Hb]); try subst b;
        first [reflexivity | discriminate Hleb].
Qed.

Lemma heading_levels_end_sections_witness :
  1 <= 2 <= 9 /\ 1 <= 3 <= 9
  /\ Content.ends_section (mkStyle "Heading2" (ContentRest.heading_style_name 2))
       (mkParagraph (mkStyle "Heading3" (ContentRest.heading_style_name 3)) None [])
     = (3 <=? 2).
Proof.
  split; [lia |]. split; [lia |].
  destruct (heading_levels_end_sections 3 2 "Heading3" "Heading2" None [])
    as [H _]; [lia |].
  apply H. lia.
Defined.

(** ** The styles saved for the new lines *)

Lemma range_nil (a b : Z) : b <= a -> Py.range a b = [].
Proof.
  intros H. unfold Py.range.
  replace (Z.to_nat (b - a)) with 0%nat by lia. reflexivity.
Qed.

Lemma range_cons (a b : Z) : a < b -> Py.range a b = a :: Py.range (a + 1) b.
Proof.
  intros H. unfold Py.range.
  replace (Z.to_nat (b - a)) with (S (Z.to_nat (b - (a + 1)))) by lia.
  simpl. f_equal; [lia |].
  rewrite <- seq_shift, map_map. apply map_ext. intros k. lia.
Qed.

Lemma skipn_nth_error {A} (l : list A) :
  forall n x, nth_error l n = Some x -> skipn n l = x :: skipn (S n) l.
Proof.
  induction l as [| y l IH]; intros n x H; destruct n; simpl in *;
    try discriminate.
  - now injection H as ->.
  - now apply IH.
Qed.

Lemma fold_capture_step (paras : list Paragraph) (m : nat) :
  forall (a : Z) (acc : list Content.StyleInfo),
    0 <= a -> a + Z.of_nat m <= Py.len paras ->
    fold_left (Content.capture_step paras) (Py.range a (a + Z.of_nat m)) acc
    = acc ++ map Content.style_info (firstn m (skipn (Z.to_nat a) paras)).
Proof.
  induction m as [| m IH]; intros a acc Ha Hm.
  - rewrite range_nil by lia. simpl. now rewrite app_nil_r.
  - rewrite range_cons by lia. cbn [fold_left].
    destruct (getitem_defined paras a) as [para Hget]; [lia |].
    assert (Hstep : Content.capture_step paras acc a
                    = acc ++ [Content.style_info para]).
    { unfold Content.capture_step.
      replace (a <? Py.len paras) with true by (symmetry; apply Z.ltb_lt; lia).
      now rewrite Hget. }
    rewrite Hstep.
    replace (a + Z.of_nat (S m)) with (a + 1 + Z.of_nat m) by lia.
    rewrite IH by lia.
    unfold Py.getitem in Hget.
    replace (a <? 0) with false in Hget by (symmetry; apply Z.ltb_ge; lia).
    rewrite (skipn_nth_error paras _ _ Hget).
    replace (Z.to_nat (a + 1)) with (S (Z.to_nat a)) by lia.
    cbn [firstn map]. now rewrite <- app_assoc.
Qed.

Lemma last_app_repeat {A} (l : list A) (d : A) (k : nat) :
  last (l ++ repeat (last l d) k) d = last l d.
Proof.
  induction k as [| k IH]; simpl; [now rewrite app_nil_r |].
  rewrite repeat_cons, app_assoc, last_last. reflexivity.
Qed.

Lemma iter_pad (k : nat) (l : list Content.StyleInfo) :
  Nat.iter k Content.pad l
  = l ++ repeat (last l Content.default_style_info) k.
Proof.
  induction k as [| k IH]; simpl; [now rewrite app_nil_r |].
  rewrite IH. unfold Content.pad.
  destruct (l ++ repeat (last l Content.default_style_info) k) as [| x r] eqn:E.
  - apply app_eq_nil in E. destruct E as [-> E].
    destruct k; [reflexivity | discriminate].
  - rewrite <- E, last_app_repeat, repeat_cons, app_assoc. reflexivity.
Qed.

(** The saved styles, for a range [start, stop) of the paragraphs and
    [n_new] new lines: first the styles of the paragraphs of the range, from
    its start, as many as there are new lines and paragraphs in the range;
    then the last of these again and again (the default style, when the
    range is empty), up to one style for every new line. *)
Theorem capture_styles_entries (paras : list Paragraph) (start stop n_new : Z) :
  0 <= start <= stop -> stop <= Py.len paras -> 0 <= n_new ->
  let m := Z.to_nat (Z.min (stop - start) n_new) in
  let saved := map Content.style_info (firstn m (skipn (Z.to_nat start) paras)) in
  Content.capture_styles paras start stop n_new
  = saved ++ repeat (last saved Content.default_style_info) (Z.to_nat n_new - m)
  /\ Py.len (Content.capture_styles paras start stop n_new) = n_new.
Proof.
  intros Hs Hn Hnew. cbv zeta.
  set (m := Z.to_nat (Z.min (stop - start) n_new)).
  unfold Content.capture_styles.
  replace (Z.min stop (start + n_new)) with (start + Z.of_nat m) by lia.
  rewrite fold_capture_step by lia. simpl app.
  set (saved := map Content.style_info (firstn m (skipn (Z.to_nat start) paras))).
  assert (Hlen : List.length saved = m).
  { unfold saved. rewrite length_map, length_firstn, length_skipn.
    unfold Py.len in Hn. lia. }
  unfold Py.len. rewrite Hlen, iter_pad.
  replace (Z.to_nat (n_new - Z.of_nat m)) with (Z.to_nat n_new - m)%nat by lia.
  split; [reflexivity |].
  rewrite length_app, repeat_length, Hlen. lia.
Qed.

Lemma capture_styles_entries_witness :
  let paras := paragraphs Scenario.titled_document in
  0 <= 1 <= 2 /\ 2 <= Py.len paras /\ 0 <= 3
  /\ Py.len (Content.capture_styles paras 1 2 3) = 3.
Proof.
  cbv zeta.
  assert (Hn : Py.len (paragraphs Scenario.titled_document) = 4) by reflexivity.
  split; [lia |]. split; [lia |]. split; [lia |].
  apply (capture_styles_entries (paragraphs Scenario.titled_document) 1 2 3); lia.
Defined.

(** ** The two replacing tools on a body of paragraphs *)






(** ** Tables of the body *)

Lemma table_position_from_shift (d : Document) :
  forall i k, TableTools.table_position_from (S i) k d
              = option_map S (TableTools.table_position_from i k d).
Proof.
  induction d as [| b d IH]; intros i k; simpl; [reflexivity |].
  destruct b as [p | t |]; try apply IH.
  destruct k as [| k]; [reflexivity | apply IH].
Qed.

(** The block behind [doc.tables[n]], and what rewriting it changes. *)
Lemma table_position_spec (d : Document) :
  forall n k, TableTools.table_position n d = Some k ->
    exists t, nth_error d k = Some (BTable t)
              /\ nth_error (tables d) n = Some t
              /\ forall f,
                   tables (TableRest.update_table k f d) = update_at n f (tables d)
                   /\ paragraphs (TableRest.update_table k f d) = paragraphs d
                   /\ TableTools.table_position n (TableRest.update_table k f d)
                      = Some k.
Proof.
  unfold TableTools.table_position, TableRest.update_table.
  induction d as [| b d IH]; intros n k H; simpl in H; [discriminate |].
  destruct b as [p | t |].
  - rewrite table_position_from_shift in H.
    destruct (TableTools.table_position_from 0 n d) as [k' |] eqn:Hk;
      [| discriminate].
    injection H as <-. destruct (IH n k' Hk) as (t & H1 & H2 & H3).
    exists t. split; [exact H1 |]. split; [exact H2 |].
    intros f. destruct (H3 f) as (F1 & F2 & F3). simpl.
    rewrite F1, F2, table_position_from_shift, F3. repeat split.
  - destruct n as [| n].
    + injection H as <-. exists t. repeat split.
    + rewrite table_position_from_shift in H.
      destruct (TableTools.table_position_from 0 n d) as [k' |] eqn:Hk;
        [| discriminate].
      injection H as <-. destruct (IH n k' Hk) as (t' & H1 & H2 & H3).
      exists t'. split; [exact H1 |]. split; [exact H2 |].
      intros f. destruct (H3 f) as (F1 & F2 & F3). simpl.
      rewrite F1, F2, table_position_from_shift, F3. repeat split.
  - rewrite table_position_from_shift in H.
    destruct (TableTools.table_position_from 0 n d) as [k' |] eqn:Hk;
      [| discriminate].
    injection H as <-. destruct (IH n k' Hk) as (t & H1 & H2 & H3).
    exists t. split; [exact H1 |]. split; [exact H2 |].
    intros f. destruct (H3 f) as (F1 & F2 & F3). simpl.
    rewrite F1, F2, table_position_from_shift, F3. repeat split.
Qed.

Lemma table_position_defined (d : Document) :
  forall n, (n < List.length (tables d))%nat ->
    exists k, TableTools.table_position n d = Some k.
Proof.
  unfold TableTools.table_position.
  induction d as [| b d IH]; intros n H; simpl in *; [lia |].
  destruct b as [p | t |]; simpl in H.
  - rewrite table_position_from_shift.
    destruct (IH n H) as [k Hk]. rewrite Hk. now exists (S k).
  - destruct n as [| n]; [now exists 0%nat |].
    rewrite table_position_from_shift.
    destruct (IH n) as [k Hk]; [lia |]. rewrite Hk. now exists (S k).
  - rewrite table_position_from_shift.
    destruct (IH n H) as [k Hk]. rewrite Hk. now exists (S k).
Qed.

(** The checks every table tool starts with, passed. *)
Lemma table_lookup (doc : Document) (table_index : Z) :
  0 <= table_index < Py.len (tables doc) ->
  exists t0 ts table k,
    tables doc = t0 :: ts
    /\ (table_index <? 0) || (table_index >=? Py.len (t0 :: ts)) = false
    /\ Py.getitem (t0 :: ts) table_index = Some table
    /\ TableTools.table_position (Z.to_nat table_index) doc = Some k
    /\ nth_error (tables doc) (Z.to_nat table_index) = Some table.
Proof.
  intros H. unfold Py.len in H.
  destruct (table_position_defined doc (Z.to_nat table_index)) as [k Hk];
    [lia |].
  destruct (table_position_spec doc _ _ Hk) as (table & _ & Hnth & _).
  destruct (tables doc) as [| t0 ts] eqn:Ht; [simpl in H; lia |].
  exists t0, ts, table, k. split; [reflexivity |]. split; [| split; [| split]].
  - apply orb_false_iff. split; [apply Z.ltb_ge | apply geb_false_iff];
      unfold Py.len; lia.
  - unfold Py.getitem.
    replace (table_index <? 0) with false by (symmetry; apply Z.ltb_ge; lia).
    exact Hnth.
  - exact Hk.
  - exact Hnth.
Qed.





(** ** Rows of a table *)



Lemma rows_remove_row (t : Table) :
  forall k, rows (TableRest.remove_row k t) = remove_at k (rows t)
            /\ xpath_tblGrid (TableRest.remove_row k t) = xpath_tblGrid t
            /\ xpath_tblPr (TableRest.remove_row k t) = xpath_tblPr t.
Proof.
  induction t as [| c t IH]; intros k; [destruct k; repeat split |].
  destruct c as [pr | g | r | e]; simpl;
    try (destruct (IH k) as (H1 & H2 & H3); rewrite H1, H2, H3; repeat split).
  destruct k as [| k]; [repeat split |].
  destruct (IH k) as (H1 & H2 & H3). simpl. rewrite H1, H2, H3. repeat split.
Qed.



(** ** Filling a row *)







(** ** The table tools on the table they are given *)

Lemma nth_error_update_at_eq {A} (f : A -> A) (l : list A) :
  forall k x, nth_error l k = Some x ->
    nth_error (update_at k f l) k = Some (f x).
Proof.
  induction l as [| y l IH]; intros k x H; destruct k; simpl in *;
    try discriminate.
  - now injection H as ->.
  - now apply IH.
Qed.

Lemma map_remove_at {A B} (f : A -> B) (k : nat) (l : list A) :
  map f (remove_at k l) = remove_at k (map f l).
Proof.
  unfold remove_at. now rewrite map_app, firstn_map, skipn_map.
Qed.



Lemma Forall_remove_at {A} (P : A -> Prop) (k : nat) (l : list A) :
  Forall P l -> Forall P (remove_at k l).
Proof.
  intros H. unfold remove_at. apply Forall_app. split.
  - rewrite <- (firstn_skipn k l) in H. apply Forall_app in H. tauto.
  - rewrite <- (firstn_skipn (S k) l) in H. apply Forall_app in H. tauto.
Qed.


(** The checks that every table tool starts with are passed, and the tool
    goes on with the table and its position in the body. *)
Ltac table_checks H :=
  let t0 := fresh "t0" in
  let ts := fresh "ts" in
  let Ht := fresh "Ht" in
  let Hrange := fresh "Hrange" in
  let Hget := fresh "Hget" in
  destruct (table_lookup _ _ H)
    as (t0 & ts & ?table & ?k & Ht & Hrange & Hget & ?Hpos & ?Hnth);
  rewrite Ht; cbv zeta; rewrite Hrange, Hget, Hpos; clear Hrange Hget;
  rewrite <- ?Ht; clear Ht t0 ts.

Lemma table_index_bounds (doc : Document) (table_index : Z) (table : Table) :
  0 <= table_index ->
  nth_error (tables doc) (Z.to_nat table_index) = Some table ->
  0 <= table_index < Py.len (tables doc).
Proof.
  intros H0 H. assert (nth_error (tables doc) (Z.to_nat table_index) <> None)
    as Hn by congruence.
  apply nth_error_Some in Hn. unfold Py.len. lia.
Qed.



(** [delete_table_row] with indexes in range removes exactly the row
    it is given from the table it is given; the grid of the table, the
    other tables and the paragraphs stay as they were. *)
Theorem delete_table_row_effect (doc : Document) (table_index row_index : Z)
    (table : Table) :
  0 <= table_index ->
  nth_error (tables doc) (Z.to_nat table_index) = Some table ->
  0 <= row_index < Py.len (rows table) ->
  exists table' doc',
    TableRest.delete_table_row table_index row_index (Some doc)
    = (Deleted_row row_index table_index, Some doc')
    /\ nth_error (tables doc') (Z.to_nat table_index) = Some table'
    /\ rows table' = remove_at (Z.to_nat row_index) (rows table)
    /\ column_count table' = column_count table
    /\ (forall m, m <> Z.to_nat table_index ->
          nth_error (tables doc') m = nth_error (tables doc) m)
    /\ paragraphs doc' = paragraphs doc.
Proof.
  intros H0 Hnth0 Hrow.
  pose proof (table_index_bounds _ _ _ H0 Hnth0) as Hin.
  unfold TableRest.delete_table_row. table_checks Hin.
  assert (table0 = table) as -> by congruence.
  replace ((row_index <? 0) || (row_index >=? Py.len (rows table))) with false.
  2:{ symmetry. apply orb_false_iff.
      split; [apply Z.ltb_ge | apply geb_false_iff]; lia. }
  destruct (table_position_spec _ _ _ Hpos) as (t & _ & Ht & Hupd).
  assert (t = table) as -> by congruence.
  destruct (Hupd (TableRest.remove_row (Z.to_nat row_index))) as (U1 & U2 & _).
  destruct (rows_remove_row table (Z.to_nat row_index)) as (R1 & R2 & _).
  exists (TableRest.remove_row (Z.to_nat row_index) table),
         (TableRest.update_table k
            (TableRest.remove_row (Z.to_nat row_index)) doc).
  split; [reflexivity |]. split; [| split; [| split; [| split]]].
  - rewrite U1.
    exact (nth_error_update_at_eq
             (TableRest.remove_row (Z.to_nat row_index)) _ _ _ Ht).
  - exact R1.
  - unfold column_count. now rewrite R2.
  - intros m Hm. rewrite U1. apply nth_error_update_at_ne. congruence.
  - exact U2.
Qed.

Lemma delete_table_row_effect_witness :
  exists table' doc',
    TableRest.delete_table_row 0 0 (Some Grid.two_by_two)
    = (Deleted_row 0 0, Some doc')
    /\ nth_error (tables doc') 0 = Some table'
    /\ map (map cell_text) (rows table') = [["c"; "d"]].
Proof.
  destruct (delete_table_row_effect Grid.two_by_two 0 0
              (hd [] (tables Grid.two_by_two)))
    as (table' & doc' & H1 & H2 & H3 & _).
  - lia.
  - reflexivity.
  - vm_compute. split; congruence.
  - exists table', doc'. split; [exact H1 |]. split; [exact H2 |].
    rewrite H3. reflexivity.
Defined.



(** ** [edit_table_cell] *)







(** ** [add_table] *)










(** ** [split_table] where it succeeds *)

Lemma table_position_split (d : Document) :
  forall n k, TableTools.table_position n d = Some k ->
    tables (firstn k d) = firstn n (tables d)
    /\ tables (skipn (S k) d) = skipn (S n) (tables d)
    /\ paragraphs (firstn k d) ++ paragraphs (skipn (S k) d) = paragraphs d.
Proof.
  unfold TableTools.table_position.
  induction d as [| b d IH]; intros n k H; simpl in H; [discriminate |].
  destruct b as [p | t |].
  - rewrite table_position_from_shift in H.
    destruct (TableTools.table_position_from 0 n d) as [k' |] eqn:Hk;
      [| discriminate].
    injection H as <-. destruct (IH n k' Hk) as (I1 & I2 & I3).
    cbn [firstn skipn tables paragraphs flat_map app] in *.
    change (tables (firstn k' d) = firstn n (tables d)) in I1.
    repeat split; try assumption. simpl. now rewrite I3.
  - destruct n as [| n].
    + injection H as <-. repeat split.
    + rewrite table_position_from_shift in H.
      destruct (TableTools.table_position_from 0 n d) as [k' |] eqn:Hk;
        [| discriminate].
      injection H as <-. destruct (IH n k' Hk) as (I1 & I2 & I3).
      simpl. rewrite I1. repeat split; assumption.
  - rewrite table_position_from_shift in H.
    destruct (TableTools.table_position_from 0 n d) as [k' |] eqn:Hk;
      [| discriminate].
    injection H as <-. destruct (IH n k' Hk) as (I1 & I2 & I3).
    simpl. repeat split; assumption.
Qed.

Lemma keep_rows_rows (t : Table) :
  forall m, rows (TableTools.keep_rows m t) = firstn m (rows t)
            /\ xpath_tblPr (TableTools.keep_rows m t) = xpath_tblPr t
            /\ xpath_tblGrid (TableTools.keep_rows m t) = xpath_tblGrid t.
Proof.
  induction t as [| c t IH]; intros m.
  - destruct m; repeat split.
  - destruct c as [pr | g | r | e]; simpl;
      try solve [destruct (IH m) as (I1 & I2 & I3); rewrite ?I1, ?I2, ?I3;
                 repeat split].
    destruct m as [| m]; simpl.
    + destruct (IH 0%nat) as (I1 & I2 & I3). rewrite I1, I2, I3. repeat split.
    + destruct (IH m) as (I1 & I2 & I3). rewrite I1, I2, I3. repeat split.
Qed.

Lemma rows_of_rows (trs : list Tr) :
  rows (map TrChild trs) = trs
  /\ xpath_tblPr (map TrChild trs) = []
  /\ xpath_tblGrid (map TrChild trs) = [].
Proof.
  induction trs as [| r trs (I1 & I2 & I3)]; [repeat split |].
  simpl. rewrite I1, I2, I3. repeat split.
Qed.

(** [split_table] succeeds on a table whose [w:tblPr] and [w:tblGrid]
    have no children: the rows after [row_index] are moved, in their order,
    to a new table that follows the table in the document; no row is lost or
    copied, and the paragraphs and the other tables stay as they were.  The
    new table gets neither properties nor a grid, so it has no columns for
    the tools that ask for them. *)
Theorem split_table_effect (doc : Document) (table_index row_index : Z)
    (tbl : Table) (prs grids : list (list XmlElement)) :
  0 <= table_index ->
  nth_error (tables doc) (Z.to_nat table_index) = Some tbl ->
  xpath_tblPr tbl = [] :: prs ->
  xpath_tblGrid tbl = [] :: grids ->
  0 <= row_index < Py.len (rows tbl) - 1 ->
  exists first second doc',
    TableTools.split_table table_index row_index (Some doc)
    = (Split_table_after_row table_index row_index, Some doc')
    /\ tables doc'
       = firstn (Z.to_nat table_index) (tables doc)
         ++ first :: second :: skipn (S (Z.to_nat table_index)) (tables doc)
    /\ rows first = firstn (Z.to_nat (row_index + 1)) (rows tbl)
    /\ rows second = skipn (Z.to_nat (row_index + 1)) (rows tbl)
    /\ rows first ++ rows second = rows tbl
    /\ column_count first = column_count tbl
    /\ column_count second = None
    /\ paragraphs doc' = paragraphs doc.
Proof.
  intros H0 Hnth0 Hpr Hgrid Hrow.
  pose proof (table_index_bounds _ _ _ H0 Hnth0) as Hin.
  unfold TableTools.split_table. table_checks Hin.
  assert (table = tbl) as -> by congruence.
  replace ((row_index <? 0) || (row_index >=? Py.len (rows tbl) - 1)) with false.
  2:{ symmetry. apply orb_false_iff.
      split; [apply Z.ltb_ge | apply geb_false_iff]; lia. }
  rewrite Hpr. cbn [TableTools.append_copies]. rewrite Hgrid.
  cbn [TableTools.append_copies app].
  set (m := Z.to_nat (row_index + 1)).
  destruct (keep_rows_rows tbl m) as (K1 & K2 & K3).
  destruct (rows_of_rows (skipn m (rows tbl))) as (N1 & N2 & N3).
  destruct (table_position_split _ _ _ Hpos) as (S1 & S2 & S3).
  exists (TableTools.keep_rows m tbl), (map TrChild (skipn m (rows tbl))),
    (firstn k doc ++ BTable (TableTools.keep_rows m tbl)
       :: BTable (map TrChild (skipn m (rows tbl))) :: skipn (S k) doc).
  split; [reflexivity |].
  set (rest := skipn (S k) doc) in *.
  split; [| split; [| split; [| split; [| split; [| split]]]]].
  - rewrite tables_app. simpl. now rewrite S1, S2.
  - exact K1.
  - exact N1.
  - rewrite K1, N1. apply firstn_skipn.
  - unfold column_count. now rewrite K3.
  - unfold column_count. now rewrite N3.
  - rewrite paragraphs_app. simpl. exact S3.
Qed.

Lemma split_table_effect_witness :
  let tbl := [TblPr []; TblGrid [];
              TrChild [TableTools.empty_cell]; TrChild []; TrChild []] in
  exists first second doc',
    TableTools.split_table 0 0 (Some [BTable tbl; BSectPr])
    = (Split_table_after_row 0 0, Some doc')
    /\ tables doc' = [first; second]
    /\ rows first = [[TableTools.empty_cell]]
    /\ rows second = [[]; []].
Proof.
  cbv zeta.
  destruct (split_table_effect
              [BTable [TblPr []; TblGrid [];
                       TrChild [TableTools.empty_cell]; TrChild []; TrChild []];
               BSectPr] 0 0
              [TblPr []; TblGrid [];
               TrChild [TableTools.empty_cell]; TrChild []; TrChild []] [] [])
    as (first & second & doc' & H1 & H2 & H3 & H4 & _).
  - lia.
  - reflexivity.
  - reflexivity.
  - reflexivity.
  - vm_compute. split; congruence.
  - exists first, second, doc'. split; [exact H1 |].
    split; [exact H2 |]. split; [exact H3 | exact H4].
Defined.

(** ** Inputs for the properties of the replacement and of [split_table] *)


Lemma split_table_succeeds_only_without_properties_witness :
  let doc := [BTable [TblPr []; TblGrid []; TrChild []; TrChild []]; BSectPr] in
  exists tbl,
    Py.getitem (tables doc) 0 = Some tbl
    /\ hd_error (xpath_tblPr tbl) = Some []
    /\ hd_error (xpath_tblGrid tbl) = Some [].
Proof.
  cbv zeta.
  destruct (split_table_succeeds_only_without_properties 0 0
              (Some [BTable [TblPr []; TblGrid []; TrChild []; TrChild []];
                     BSectPr]))
    as (doc & tbl & Hst & Hget & Hpr & Hgrid).
  - reflexivity.
  - injection Hst as <-. exists tbl. repeat split; assumption.
Defined.

Lemma split_table_failure_changes_nothing_witness :
  snd (TableTools.split_table 0 0 (Some Grid.two_by_two))
  = Some Grid.two_by_two.
Proof.
  apply (split_table_failure_changes_nothing 0 0 (Some Grid.two_by_two)).
  reflexivity.
Defined.
